(** * ThingsBoard telemetry proxy: a shallow embedding of INNOWATT_BACKEND.py

    The service logs in to a ThingsBoard instance, fetches time series of one
    device, reshapes them and serves them through four Flask routes.  The
    development below embeds the Python functions of that file one by one:

    - the parsed JSON bodies are Python objects, modelled by [value];
    - a Python exception is an [exn]; code that may raise returns a [result];
    - the network, the clock and the time zone form a [World]; code that
      talks to them runs in the state monad [M], which threads the number of
      calls made so far and the list of effects performed (the [trace]).

    Strings are ASCII text: one character of a Rocq [string] stands for one
    code point of a Python [str]. *)

From Stdlib Require Import ZArith List String Ascii Bool Lia.
From Stdlib Require Import Floats.SpecFloat.
Import ListNotations.
Open Scope string_scope.
Open Scope Z_scope.
Open Scope list_scope.

Set Warnings "-register-all".

(** ** Python objects *)

(** IEEE 754 binary64, the format of a Python [float]. *)
Definition float64 : Type := spec_float.

Definition prec64 : Z := 53.
Definition emax64 : Z := 1024.

(** The literal [0.0]. *)
Definition fzero : float64 := S754_zero false.

(** [float(True)], i.e. [1.0]. *)
Definition fone : float64 := binary_normalize prec64 emax64 1 0 false.

(** What [json.loads] produces, and [None]. *)
Inductive value : Type :=
| VNone
| VBool (b : bool)
| VInt (z : Z)
| VFloat (f : float64)
| VStr (s : string)
| VList (l : list value)
| VDict (d : list (string * value)).

(** A [dict] with [str] keys is kept as the list of its items; a key is looked
    up from the front, so that an item shadows later items of the same key. *)
Definition dict (A : Type) : Type := list (string * A).

Fixpoint dict_get {A : Type} (d : dict A) (k : string) : option A :=
  match d with
  | [] => None
  | (k', v) :: rest => if String.eqb k' k then Some v else dict_get rest k
  end.

Definition dict_mem {A : Type} (d : dict A) (k : string) : bool :=
  match dict_get d k with Some _ => true | None => false end.

(** [d[k] = v]: the binding of [k] is replaced in place, a new key goes to the
    end. *)
Fixpoint dict_set {A : Type} (d : dict A) (k : string) (v : A) : dict A :=
  match d with
  | [] => [(k, v)]
  | (k', v') :: rest =>
      if String.eqb k' k then (k', v) :: rest else (k', v') :: dict_set rest k v
  end.

(** ** Exceptions *)

Inductive exn : Type :=
| IndexError
| KeyError
| TypeError
| AttributeError
| ValueError
| OverflowError
| RequestException.

Inductive result (A : Type) : Type :=
| Ok (a : A)
| Raise (e : exn).

Arguments Ok {A} a.
Arguments Raise {A} e.

Definition rbind {A B : Type} (r : result A) (k : A -> result B) : result B :=
  match r with
  | Ok a => k a
  | Raise e => Raise e
  end.

Notation "'let?' x ':=' r 'in' k" := (rbind r (fun x => k))
  (at level 10, x name, r at level 100, k at level 200).

Fixpoint rmap {A B : Type} (f : A -> result B) (l : list A) : result (list B) :=
  match l with
  | [] => Ok []
  | a :: rest =>
      let? b := f a in
      let? bs := rmap f rest in
      Ok (b :: bs)
  end.

(** ** The operations of Python the service uses *)

(** Truth value of an object: [None], [False], zero, and the empty string,
    list and dict are false. *)
Definition float_is_zero (f : float64) : bool :=
  match f with S754_zero _ => true | _ => false end.

Definition truthy (v : value) : bool :=
  match v with
  | VNone => false
  | VBool b => b
  | VInt z => negb (z =? 0)
  | VFloat f => negb (float_is_zero f)
  | VStr s => negb (String.eqb s "")
  | VList l => match l with [] => false | _ => true end
  | VDict d => match d with [] => false | _ => true end
  end.

(** [sub in s] on two strings. *)
Fixpoint is_substring (sub s : string) : bool :=
  if String.prefix sub s then true
  else match s with
       | EmptyString => false
       | String _ rest => is_substring sub rest
       end.

Definition is_str (k : string) (v : value) : bool :=
  match v with VStr s => String.eqb s k | _ => false end.

(** [k in v] for a string [k]: key membership in a dict, element membership in
    a list, substring test in a string; the other objects are not
    containers. *)
Definition py_contains (k : string) (v : value) : result bool :=
  match v with
  | VDict d => Ok (dict_mem d k)
  | VList l => Ok (existsb (is_str k) l)
  | VStr s => Ok (is_substring k s)
  | _ => Raise TypeError
  end.

(** [v.get(k, default)]: only a dict has the method. *)
Definition py_get (v : value) (k : string) (default : value) : result value :=
  match v with
  | VDict d => Ok (match dict_get d k with Some x => x | None => default end)
  | _ => Raise AttributeError
  end.

(** [v[i]] for a non-negative integer [i]. *)
Definition py_index (v : value) (i : nat) : result value :=
  match v with
  | VList l => match nth_error l i with Some x => Ok x | None => Raise IndexError end
  | VStr s => match String.get i s with
              | Some c => Ok (VStr (String c EmptyString))
              | None => Raise IndexError
              end
  | VDict _ => Raise KeyError
  | _ => Raise TypeError
  end.

(** [v[k]] for a string [k]. *)
Definition py_item (v : value) (k : string) : result value :=
  match v with
  | VDict d => match dict_get d k with Some x => Ok x | None => Raise KeyError end
  | _ => Raise TypeError
  end.

(** [len(v)]. *)
Definition py_len (v : value) : result nat :=
  match v with
  | VList l => Ok (List.length l)
  | VDict d => Ok (List.length d)
  | VStr s => Ok (String.length s)
  | _ => Raise TypeError
  end.

(** [s.lower()]. *)
Definition ascii_lower (c : ascii) : ascii :=
  let n := nat_of_ascii c in
  if (65 <=? n)%nat && (n <=? 90)%nat then ascii_of_nat (n + 32) else c.

Fixpoint str_lower (s : string) : string :=
  match s with
  | EmptyString => EmptyString
  | String c rest => String (ascii_lower c) (str_lower rest)
  end.

(** [float(z)] for an integer: the nearest binary64, ties to even;
    [OverflowError] when it is out of range. *)
Definition float_of_Z (z : Z) : result float64 :=
  match binary_normalize prec64 emax64 z 0 false with
  | S754_infinity _ => Raise OverflowError
  | f => Ok f
  end.

Section Coercion.

(** [float(s)] for a string is the interpreter's parser of float literals;
    [None] stands for its [ValueError]. *)
Variable float_of_str : string -> option float64.

(** [float(v)]. *)
Definition py_float (v : value) : result float64 :=
  match v with
  | VFloat f => Ok f
  | VInt z => float_of_Z z
  | VBool b => Ok (if b then fone else fzero)
  | VStr s => match float_of_str s with Some f => Ok f | None => Raise ValueError end
  | VNone | VList _ | VDict _ => Raise TypeError
  end.

End Coercion.

(** ** The parser of float literals

    [float] accepts, between optional white space: an optional sign followed
    by [inf], [infinity] or [nan] in any case, or by a decimal literal with an
    optional fraction and an optional exponent; an underscore may separate two
    digits.  The decimal value is rounded to the nearest binary64, ties to
    even, and overflows to an infinity. *)
Module FloatLiteral.

Definition is_space (c : ascii) : bool :=
  match c with
  | " "%char | "009"%char | "010"%char | "011"%char | "012"%char | "013"%char => true
  | _ => false
  end.

Definition is_digit (c : ascii) : bool :=
  let n := nat_of_ascii c in (48 <=? n)%nat && (n <=? 57)%nat.

Definition digit_value (c : ascii) : Z := Z.of_nat (nat_of_ascii c) - 48.

Fixpoint drop_spaces (cs : list ascii) : list ascii :=
  match cs with
  | c :: rest => if is_space c then drop_spaces rest else cs
  | [] => []
  end.

Definition strip (cs : list ascii) : list ascii :=
  rev (drop_spaces (rev (drop_spaces cs))).

(** Removes the underscores; [None] unless each one stands between two
    digits.  [prev] is the character before [cs]. *)
Fixpoint drop_underscores (prev : option ascii) (cs : list ascii) : option (list ascii) :=
  let prev_digit := match prev with Some p => is_digit p | None => false end in
  let prev_under := match prev with Some "_"%char => true | _ => false end in
  match cs with
  | [] => if prev_under then None else Some []
  | c :: rest =>
      if Ascii.eqb c "_" then
        if prev_digit then drop_underscores (Some c) rest else None
      else if prev_under && negb (is_digit c) then None
      else option_map (cons c) (drop_underscores (Some c) rest)
  end.

(** The longest prefix of digits, as a number with its length, and the rest. *)
Fixpoint digits (acc : Z) (n : Z) (cs : list ascii) : Z * Z * list ascii :=
  match cs with
  | c :: rest => if is_digit c then digits (10 * acc + digit_value c) (n + 1) rest
                 else (acc, n, cs)
  | [] => (acc, n, [])
  end.

Definition sign (cs : list ascii) : bool * list ascii :=
  match cs with
  | "-"%char :: rest => (true, rest)
  | "+"%char :: rest => (false, rest)
  | _ => (false, cs)
  end.

(** The exponent part; a part that is not complete is not consumed. *)
Definition exponent (cs : list ascii) : Z * list ascii :=
  match cs with
  | c :: rest =>
      if Ascii.eqb (ascii_lower c) "e" then
        let '(neg, rest') := sign rest in
        let '(e, n, rest'') := digits 0 0 rest' in
        if n =? 0 then (0, cs) else (if neg then - e else e, rest'')
      else (0, cs)
  | [] => (0, [])
  end.

(** [m * 10 ^ e], rounded. *)
Definition round_decimal (neg : bool) (m e : Z) : float64 :=
  match m with
  | Zpos _ =>
      if 0 <=? e then
        binary_round prec64 emax64 neg (Z.to_pos (m * 10 ^ e)) 0
      else
        let '(q, e', l) := SFdiv_core_binary prec64 emax64 m 0 (10 ^ (- e)) 0 in
        binary_round_aux prec64 emax64 neg q e' l
  | _ => S754_zero neg
  end.

Definition decimal (neg : bool) (cs : list ascii) : option float64 :=
  let '(i, ni, rest) := digits 0 0 cs in
  let '(m, nf, rest') :=
    match rest with
    | "."%char :: frac => digits i 0 frac
    | _ => (i, 0, rest)
    end in
  if ni + nf =? 0 then None
  else
    let '(e, rest'') := exponent rest' in
    match rest'' with
    | [] => Some (round_decimal neg m (e - nf))
    | _ => None
    end.

Definition inf_or_nan (neg : bool) (cs : list ascii) : option float64 :=
  let word := string_of_list_ascii (map ascii_lower cs) in
  if String.eqb word "inf" || String.eqb word "infinity" then Some (S754_infinity neg)
  else if String.eqb word "nan" then Some S754_nan
  else None.

Definition float_of_str (s : string) : option float64 :=
  match strip (list_ascii_of_string s) with
  | [] => None
  | c :: cs' =>
      match drop_underscores None (c :: cs') with
      | None => None
      | Some cs =>
          let '(neg, body) := sign cs in
          match decimal neg body with
          | Some f => Some f
          | None => inf_or_nan neg body
          end
      end
  end.

End FloatLiteral.

(** ** Key normalizer *)

(** Canonical key -> the spellings ThingsBoard may use, in the declared
    order. *)
Definition TELEMETRY_KEY_MAPPING : dict (list string) :=
  [ ("voltage", ["Voltage"; "voltage"; "VOLTAGE"]);
    ("current", ["Current"; "current"; "CURRENT"]);
    ("power", ["Power"; "power"; "POWER"]);
    ("energy", ["Energy"; "energy"; "ENERGY"]);
    ("frequency", ["Frequency"; "frequency"; "FREQUENCY"]);
    ("powerfact", ["PowerFact"; "PF"; "powerfactor"; "Power_Factor"]);
    ("rmp", ["RMP"; "rmp"; "Rmp"]) ].

(** [TELEMETRY_KEY_MAPPING.get(key, default)]. *)
Definition mapping_get (key : string) (default : list string) : list string :=
  match dict_get TELEMETRY_KEY_MAPPING key with
  | Some variants => variants
  | None => default
  end.

(** The result is the matching key, or [None]. *)
Fixpoint find_matching_key (data : value) (possible_keys : list string)
  : result (option string) :=
  match possible_keys with
  | [] => Ok None
  | key :: rest =>
      let? present := py_contains key data in
      if present then Ok (Some key) else find_matching_key data rest
  end.

(** [resolveKey] of the specification: [find_matching_key] over the variant
    list of a canonical key. *)
Definition resolveKey (data : value) (canonical : string) : result (option string) :=
  find_matching_key data (mapping_get canonical [canonical]).

Section Normalizer.

Variable float_of_str : string -> option float64.

(** The [try] around the coercion catches [ValueError] and [TypeError]
    only. *)
Definition coerce_value (raw : value) : result float64 :=
  match py_float float_of_str raw with
  | Ok f => Ok f
  | Raise ValueError | Raise TypeError => Ok fzero
  | Raise e => Raise e
  end.

(** The result is the pair [(value, ts)]. *)
Definition get_value_and_timestamp (data : value) (standard_key : string)
  : result (float64 * value) :=
  let possible_keys := mapping_get standard_key [standard_key] in
  let? actual_key := find_matching_key data possible_keys in
  match actual_key with
  | None => Ok (fzero, VNone)
  | Some key =>
      if String.eqb key "" then Ok (fzero, VNone)
      else
        let? series := py_get data key (VList [VDict []]) in
        let? entry := py_index series 0 in
        let? raw := py_get entry "value" (VFloat fzero) in
        let? value := coerce_value raw in
        let? ts := py_get entry "ts" VNone in
        Ok (value, ts)
  end.

End Normalizer.

(** [extractLatest] of the specification. *)
Definition extractLatest := get_value_and_timestamp.

(** [a or b] on an optional string. *)
Definition or_else (a : option string) (b : string) : string :=
  match a with
  | Some k => if String.eqb k "" then b else k
  | None => b
  end.

(** ** Series assembly (weekly and monthly) *)

(** [data[key][i][field]]. *)
Definition series_field (data : value) (key : string) (i : nat) (field : string)
  : result value :=
  let? series := py_item data key in
  let? entry := py_index series i in
  py_item entry field.

(** [data[key][i]['value'] if i < len(data.get(key, [])) else 0]. *)
Definition companion_value (data : value) (key : string) (i : nat) : result value :=
  let? series := py_get data key (VList []) in
  let? n := py_len series in
  if (i <? n)%nat then series_field data key i "value" else Ok (VInt 0).

Record actual_keys : Type := {
  actual_power_key : string;
  actual_voltage_key : string;
  actual_current_key : string;
  actual_frequency_key : string;
  actual_rmp_key : string;
  actual_energy_key : string
}.

(** The spelling in use for a canonical key, the canonical key itself when no
    variant is present. *)
Definition actual_key (telemetry_data : value) (canonical : string) : result string :=
  let? found := find_matching_key telemetry_data (mapping_get canonical [canonical]) in
  Ok (or_else found canonical).

Definition resolve_actual_keys (telemetry_data : value) : result actual_keys :=
  let? p := actual_key telemetry_data "power" in
  let? v := actual_key telemetry_data "voltage" in
  let? c := actual_key telemetry_data "current" in
  let? f := actual_key telemetry_data "frequency" in
  let? r := actual_key telemetry_data "rmp" in
  let? e := actual_key telemetry_data "energy" in
  Ok {| actual_power_key := p; actual_voltage_key := v; actual_current_key := c;
        actual_frequency_key := f; actual_rmp_key := r; actual_energy_key := e |}.

(** One turn of the loop: the record for index [i]. *)
Definition series_point (telemetry_data : value) (ks : actual_keys) (i : nat)
  : result value :=
  let? ts := series_field telemetry_data (actual_power_key ks) i "ts" in
  let? power := series_field telemetry_data (actual_power_key ks) i "value" in
  let? voltage := companion_value telemetry_data (actual_voltage_key ks) i in
  let? current := companion_value telemetry_data (actual_current_key ks) i in
  let? frequency := companion_value telemetry_data (actual_frequency_key ks) i in
  let? rmp := companion_value telemetry_data (actual_rmp_key ks) i in
  let? energy := companion_value telemetry_data (actual_energy_key ks) i in
  Ok (VDict [ ("timestamp", ts); ("power", power); ("voltage", voltage);
              ("current", current); ("frequency", frequency); ("rmp", rmp);
              ("energy", energy) ]).

(** The data points of [get_weekly_telemetry]; [get_monthly_telemetry] repeats
    the same statements. *)
Definition series_points (telemetry_data : value) : result (list value) :=
  let? ks := resolve_actual_keys telemetry_data in
  let? series := py_get telemetry_data (actual_power_key ks) (VList []) in
  let? max_points := py_len series in
  rmap (series_point telemetry_data ks) (seq 0 max_points).

(** ** The outside world *)

Record response : Type := {
  status_code : Z;
  (** the parsed body, [None] when the body is not JSON *)
  body : option value
}.

(** What a call through the [requests] session ends in: a response, or a
    [RequestException] (time-out, connection error, retries exhausted). *)
Inductive http_outcome : Type :=
| Responded (r : response)
| Failed.

(** The [n]-th call of each kind gets the [n]-th answer. *)
Record World : Type := {
  (** does [socket.create_connection] succeed? *)
  connect : nat -> bool;
  (** POST /api/auth/login *)
  login_post : nat -> http_outcome;
  (** GET .../values/timeseries *)
  telemetry_get : nat -> http_outcome;
  (** [int(time.time() * 1000)] *)
  clock_ms : nat -> Z;
  (** [datetime.now().strftime('%Y-%m-%d %H:%M:%S')] *)
  local_now : nat -> string;
  (** [datetime.fromtimestamp(ms / 1000).strftime('%Y-%m-%d')] *)
  local_date : Z -> string
}.

(** The environment variables read at start-up. *)
Record Config : Type := {
  USERNAME : option string;
  PASSWORD : option string;
  DEVICE_ID : option string;
  JWT_TOKEN : option string
}.

(** The query string of a telemetry request.  [keys] stands for the
    comma-joined set of spellings; Python does not fix the order in which a
    set is joined, so only membership in the list is meaningful. *)
Record params : Type := {
  keys : option (list string);
  startTs : option Z;
  endTs : option Z;
  interval : option Z;
  limit : option Z
}.

(** The effects a run leaves in the trace, in the order they happen: the
    probe with its answer, the entry into [get_auth_token], a POST to the
    login endpoint with the credentials sent, [time.sleep], and a GET to the
    telemetry endpoint with the token of its header and its query.  Log
    records are not kept: they do not influence the control flow. *)
Inductive event : Type :=
| EvConnect (ok : bool)
| EvAuthenticate
| EvLogin (username password : option string)
| EvSleep (seconds : Z)
| EvGet (device : option string) (token : value) (query : params).

Record St : Type := {
  n_connect : nat;
  n_post : nat;
  n_get : nat;
  n_clock : nat;
  trace : list event
}.

Definition initial : St :=
  {| n_connect := 0; n_post := 0; n_get := 0; n_clock := 0; trace := [] |}.

Definition M (A : Type) : Type := St -> result A * St.

Definition ret {A : Type} (a : A) : M A := fun s => (Ok a, s).

Definition raise {A : Type} (e : exn) : M A := fun s => (Raise e, s).

Definition bind {A B : Type} (m : M A) (k : A -> M B) : M B :=
  fun s => match m s with
           | (Ok a, s') => k a s'
           | (Raise e, s') => (Raise e, s')
           end.

Definition lift {A : Type} (r : result A) : M A := fun s => (r, s).

Notation "x <- m ;; k" := (bind m (fun x => k))
  (at level 61, m at next level, right associativity).
Notation "m ;;; k" := (bind m (fun _ => k))
  (at level 61, right associativity).

Definition emit (e : event) (s : St) : St :=
  {| n_connect := n_connect s; n_post := n_post s; n_get := n_get s;
     n_clock := n_clock s; trace := trace s ++ [e] |}.

(** [except RequestException: handler]. *)
Definition except_request {A : Type} (m : M A) (handler : M A) : M A :=
  fun s => match m s with
           | (Raise RequestException, s') => handler s'
           | r => r
           end.

Definition count_events (p : event -> bool) (t : list event) : nat :=
  List.length (filter p t).

Definition is_authenticate (e : event) : bool :=
  match e with EvAuthenticate => true | _ => false end.

Definition is_login (e : event) : bool :=
  match e with EvLogin _ _ => true | _ => false end.

Definition is_get (e : event) : bool :=
  match e with EvGet _ _ _ => true | _ => false end.

Definition is_sleep (e : event) : bool :=
  match e with EvSleep _ => true | _ => false end.

(** [response.raise_for_status()]. *)
Definition raise_for_status (r : response) : result unit :=
  if (400 <=? status_code r) && (status_code r <? 600)
  then Raise RequestException else Ok tt.

(** [response.json()]; the decoding error of [requests] is a
    [RequestException]. *)
Definition response_json (r : response) : result value :=
  match body r with
  | Some v => Ok v
  | None => Raise RequestException
  end.

(** Truth value of an optional integer argument. *)
Definition given (z : option Z) : option Z :=
  match z with
  | Some n => if n =? 0 then None else Some n
  | None => None
  end.

Definition opt_str (o : option string) : value :=
  match o with Some s => VStr s | None => VNone end.

Section Service.

Variable float_of_str : string -> option float64.
Variable w : World.
Variable cfg : Config.

Definition socket_create_connection : M bool :=
  fun s =>
    let ok := connect w (n_connect s) in
    (Ok ok,
     {| n_connect := S (n_connect s); n_post := n_post s; n_get := n_get s;
        n_clock := n_clock s; trace := trace s ++ [EvConnect ok] |}).

Definition http_post : M response :=
  fun s =>
    let s' := {| n_connect := n_connect s; n_post := S (n_post s); n_get := n_get s;
                 n_clock := n_clock s;
                 trace := trace s ++ [EvLogin (USERNAME cfg) (PASSWORD cfg)] |} in
    match login_post w (n_post s) with
    | Responded r => (Ok r, s')
    | Failed => (Raise RequestException, s')
    end.

Definition http_get (token : value) (query : params) : M response :=
  fun s =>
    let s' := {| n_connect := n_connect s; n_post := n_post s; n_get := S (n_get s);
                 n_clock := n_clock s;
                 trace := trace s ++ [EvGet (DEVICE_ID cfg) token query] |} in
    match telemetry_get w (n_get s) with
    | Responded r => (Ok r, s')
    | Failed => (Raise RequestException, s')
    end.

Definition time_sleep (seconds : Z) : M unit :=
  fun s => (Ok tt, emit (EvSleep seconds) s).

Definition time_ms : M Z :=
  fun s =>
    (Ok (clock_ms w (n_clock s)),
     {| n_connect := n_connect s; n_post := n_post s; n_get := n_get s;
        n_clock := S (n_clock s); trace := trace s |}).

Definition datetime_now : M string :=
  fun s =>
    (Ok (local_now w (n_clock s)),
     {| n_connect := n_connect s; n_post := n_post s; n_get := n_get s;
        n_clock := S (n_clock s); trace := trace s |}).

(** *** Connectivity probe *)

Definition check_internet_connection : M bool := socket_create_connection.

(** *** Session authenticator *)

(** The body of the [try] of one attempt: it returns or raises. *)
Definition login_attempt : M value :=
  response <- http_post ;;
  if status_code response =? 401 then ret VNone
  else
    lift (raise_for_status response) ;;;
    json <- lift (response_json response) ;;
    lift (py_get json "token" VNone).

(** [for attempt in ...], followed by the final [return None]. *)
Fixpoint login_loop (attempts : list Z) : M value :=
  match attempts with
  | [] => ret VNone
  | attempt :: rest =>
      fun s =>
        match login_attempt s with
        | (Raise RequestException, s') =>
            ((if attempt <? 2 then time_sleep (2 ^ attempt) else ret tt) ;;;
             login_loop rest) s'
        | r => r
        end
  end.

Definition get_auth_token : M value :=
  fun s =>
    (online <- check_internet_connection ;;
     if negb online then ret VNone
     else login_loop [0; 1; 2]) (emit EvAuthenticate s).

(** *** Telemetry fetcher *)

(** [tb_keys] after the loop over [keys]. *)
Definition expand_keys (ks : list string) : list string :=
  flat_map (fun key => mapping_get (str_lower key) [key]) ks.

Definition build_params (ks : option (list string))
  (start_ts end_ts interval limit : option Z) : params :=
  {| keys := match ks with
             | Some (k :: rest) => Some (nodup string_dec (expand_keys (k :: rest)))
             | _ => None
             end;
     startTs := given start_ts;
     endTs := given end_ts;
     interval := given interval;
     limit := given limit |}.

Definition fetch_telemetry (token : value) (ks : option (list string))
  (start_ts end_ts interval limit : option Z) : M value :=
  if negb (truthy token) then ret VNone
  else
    online <- check_internet_connection ;;
    if negb online then ret VNone
    else
      except_request
        (let query := build_params ks start_ts end_ts interval limit in
         response <- http_get token query ;;
         response <-
           (if status_code response =? 401 then
              new_token <- get_auth_token ;;
              if truthy new_token then http_get new_token query
              else ret response
            else ret response) ;;
         lift (raise_for_status response) ;;;
         lift (response_json response))
        (ret VNone).

(** *** Response assemblers *)

(** A Flask view returns the JSON body and the status; an exception that
    leaves the view is Flask's own error page. *)
Definition http_response : Type := (Z * value)%type.

Definition error_response (status : Z) (message : string) : http_response :=
  (status, VDict [("error", VStr message); ("online", VBool false)]).

(** [JWT_TOKEN if JWT_TOKEN else get_auth_token()]. *)
Definition obtain_token : M value :=
  if truthy (opt_str (JWT_TOKEN cfg)) then ret (opt_str (JWT_TOKEN cfg))
  else get_auth_token.

Definition process_telemetry_data (telemetry_data : value) : M value :=
  if negb (truthy telemetry_data) then ret VNone
  else
    let extract := get_value_and_timestamp float_of_str telemetry_data in
    power <- lift (extract "power") ;;
    voltage <- lift (extract "voltage") ;;
    current <- lift (extract "current") ;;
    frequency <- lift (extract "frequency") ;;
    rmp <- lift (extract "rmp") ;;
    energy <- lift (extract "energy") ;;
    powerfact <- lift (extract "powerfact") ;;
    now <- time_ms ;;
    ret (VDict [ ("power", VFloat (fst power));
                 ("power_timestamp", snd power);
                 ("voltage", VFloat (fst voltage));
                 ("voltage_timestamp", snd voltage);
                 ("current", VFloat (fst current));
                 ("current_timestamp", snd current);
                 ("frequency", VFloat (fst frequency));
                 ("frequency_timestamp", snd frequency);
                 ("rmp", VFloat (fst rmp));
                 ("rmp_timestamp", snd rmp);
                 ("energy", VFloat (fst energy));
                 ("energy_timestamp", snd energy);
                 ("powerfactor", VFloat (fst powerfact));
                 ("powerfactor_timestamp", snd powerfact);
                 ("timestamp", VInt now);
                 ("online", VBool true) ]).

Definition get_time_range (days : Z) : M (Z * Z) :=
  end_ts <- time_ms ;;
  let start_ts := end_ts - days * 24 * 60 * 60 * 1000 in
  ret (start_ts, end_ts).

(** The loop over the spellings of [ngrok_url]: the first one that is
    present, non-empty and well-formed gives the value. *)
Fixpoint ngrok_scan (telemetry_data : value) (spellings : list string)
  : result value :=
  match spellings with
  | [] => Ok VNone
  | key :: rest =>
      let? present := py_contains key telemetry_data in
      let? usable :=
        (if present then
           let? series := py_item telemetry_data key in Ok (truthy series)
         else Ok false) in
      if usable then
        match series_field telemetry_data key 0 "value" with
        | Ok url => Ok url
        | Raise KeyError | Raise IndexError | Raise TypeError =>
            ngrok_scan telemetry_data rest
        | Raise e => Raise e
        end
      else ngrok_scan telemetry_data rest
  end.

(** [processed[key] = v]. *)
Definition py_setitem (processed : value) (key : string) (v : value) : result value :=
  match processed with
  | VDict d => Ok (VDict (dict_set d key v))
  | _ => Raise TypeError
  end.

Definition snapshot_keys : list string :=
  ["power"; "voltage"; "current"; "frequency"; "rmp"; "energy"; "powerfact";
   "ngrok_url"].

Definition series_keys : list string :=
  ["power"; "voltage"; "current"; "frequency"; "rmp"; "energy"].

(** GET /api/telemetry *)
Definition get_telemetry : M http_response :=
  token <- obtain_token ;;
  if negb (truthy token) then ret (error_response 401 "Authentication failed")
  else
    telemetry_data <- fetch_telemetry token (Some snapshot_keys) None None None None ;;
    if negb (truthy telemetry_data)
    then ret (error_response 500 "Could not fetch telemetry")
    else
      processed <- process_telemetry_data telemetry_data ;;
      ngrok_url <- lift (ngrok_scan telemetry_data
                           ["ngrok_url"; "Ngrok_Url"; "NGROK_URL"]) ;;
      processed <- lift (py_setitem processed "ngrok_url" ngrok_url) ;;
      ret (200, processed).

(** GET /api/telemetry/weekly *)
Definition get_weekly_telemetry : M http_response :=
  token <- obtain_token ;;
  if negb (truthy token) then ret (error_response 401 "Authentication failed")
  else
    range <- get_time_range 7 ;;
    let '(start_ts, end_ts) := range in
    telemetry_data <- fetch_telemetry token (Some series_keys)
                        (Some start_ts) (Some end_ts) (Some 3600000) (Some 168) ;;
    if negb (truthy telemetry_data)
    then ret (error_response 500 "Could not fetch weekly telemetry")
    else
      processed_data <- lift (series_points telemetry_data) ;;
      ret (200, VDict [ ("data", VList processed_data);
                        ("start_date", VStr (local_date w start_ts));
                        ("end_date", VStr (local_date w end_ts));
                        ("interval", VStr "hourly");
                        ("online", VBool true) ]).

(** GET /api/telemetry/monthly *)
Definition get_monthly_telemetry : M http_response :=
  token <- obtain_token ;;
  if negb (truthy token) then ret (error_response 401 "Authentication failed")
  else
    range <- get_time_range 30 ;;
    let '(start_ts, end_ts) := range in
    telemetry_data <- fetch_telemetry token (Some series_keys)
                        (Some start_ts) (Some end_ts) (Some 86400000) (Some 30) ;;
    if negb (truthy telemetry_data)
    then ret (error_response 500 "Could not fetch monthly telemetry")
    else
      processed_data <- lift (series_points telemetry_data) ;;
      ret (200, VDict [ ("data", VList processed_data);
                        ("start_date", VStr (local_date w start_ts));
                        ("end_date", VStr (local_date w end_ts));
                        ("interval", VStr "daily");
                        ("online", VBool true) ]).

(** GET /health *)
Definition health_check : M http_response :=
  accessible <- check_internet_connection ;;
  now <- datetime_now ;;
  ret (200, VDict [ ("status", VStr "running");
                    ("thingsboard_accessible", VBool accessible);
                    ("timestamp", VStr now) ]).

End Service.

(** * Keep-alive pinger (ping.py) *)

Module Ping.

(** What [ping_render] prints; [at_time] is [time.ctime()]. *)
Inductive line : Type :=
| Successful (at_time : string)
| FailedWithStatus (status : Z) (at_time : string)
| PingError (at_time : string).

Inductive event : Type :=
| EvPing
| EvPrint (l : line)
| EvSleep (seconds : Z).

(** The [n]-th GET of the service's own URL, and the [n]-th reading of
    [time.ctime()]. *)
Record World : Type := {
  ping_get : nat -> http_outcome;
  ctime : nat -> string
}.

Record St : Type := {
  n_ping : nat;
  n_ctime : nat;
  trace : list event
}.

Definition requests_get (w : World) (s : St) : result response * St :=
  let s' := {| n_ping := S (n_ping s); n_ctime := n_ctime s;
               trace := trace s ++ [EvPing] |} in
  match ping_get w (n_ping s) with
  | Responded r => (Ok r, s')
  | Failed => (Raise RequestException, s')
  end.

(** [print] of a line that ends with the current [time.ctime()]. *)
Definition print_at (w : World) (l : string -> line) (s : St) : result unit * St :=
  (Ok tt,
   {| n_ping := n_ping s; n_ctime := S (n_ctime s);
      trace := trace s ++ [EvPrint (l (ctime w (n_ctime s)))] |}).

Definition time_sleep (seconds : Z) (s : St) : result unit * St :=
  (Ok tt,
   {| n_ping := n_ping s; n_ctime := n_ctime s;
      trace := trace s ++ [EvSleep seconds] |}).

Definition ping_render (w : World) (s : St) : result unit * St :=
  match requests_get w s with
  | (Ok response, s1) =>
      if status_code response =? 200 then print_at w Successful s1
      else print_at w (FailedWithStatus (status_code response)) s1
  | (Raise RequestException, s1) => print_at w PingError s1
  | (Raise e, s1) => (Raise e, s1)
  end.

(** The first [cycles] turns of the [while True] loop. *)
Fixpoint main_loop (w : World) (cycles : nat) (s : St) : result unit * St :=
  match cycles with
  | O => (Ok tt, s)
  | S n =>
      match ping_render w s with
      | (Ok _, s1) =>
          match time_sleep 180 s1 with
          | (Ok _, s2) => main_loop w n s2
          | (Raise e, s2) => (Raise e, s2)
          end
      | (Raise e, s1) => (Raise e, s1)
      end
  end.

End Ping.

(** * Vocabulary of the properties *)

(** [name] is the first element of [names] that is present. *)
Definition first_present (present : string -> bool) (names : list string)
  (name : string) : Prop :=
  exists before after,
    names = before ++ name :: after /\
    present name = true /\
    forall v, In v before -> present v = false.

(** The events a run from [s] to [s'] added to the trace. *)
Definition since (s s' : St) : list event :=
  skipn (List.length (trace s)) (trace s').

(** The fields [extractLatest] reads from an entry, with their defaults. *)
Definition raw_value (fields : dict value) : value :=
  match dict_get fields "value" with Some x => x | None => VFloat fzero end.

Definition raw_ts (fields : dict value) : value :=
  match dict_get fields "ts" with Some t => t | None => VNone end.

(** How the login endpoint may answer one attempt. *)
Definition is_401 (o : http_outcome) : Prop :=
  exists r, o = Responded r /\ status_code r = 401.

(** Any other request failure: no response, an error status other than 401,
    or a body that is not JSON. *)
Definition request_failure (o : http_outcome) : Prop :=
  o = Failed \/
  exists r, o = Responded r /\ status_code r <> 401 /\
            ((400 <= status_code r < 600) \/ body r = None).

(** A successful attempt: a JSON object under a status that is no error;
    [token] is its [token] field, [None] when it has none. *)
Definition login_success (o : http_outcome) (token : value) : Prop :=
  exists r d, o = Responded r /\ ~ (400 <= status_code r < 600) /\
              body r = Some (VDict d) /\
              token = match dict_get d "token" with Some t => t | None => VNone end.

(** The state after one POST to the login endpoint. *)
Definition after_post (cfg : Config) (s : St) : St :=
  {| n_connect := n_connect s; n_post := S (n_post s); n_get := n_get s;
     n_clock := n_clock s;
     trace := trace s ++ [EvLogin (USERNAME cfg) (PASSWORD cfg)] |}.

(** The state after the probe. *)
Definition after_connect (ok : bool) (s : St) : St :=
  {| n_connect := S (n_connect s); n_post := n_post s; n_get := n_get s;
     n_clock := n_clock s; trace := trace s ++ [EvConnect ok] |}.

(** [k] failed attempts, each followed by its back-off sleep, starting at
    attempt number [attempt]. *)
Fixpoint failed_attempts (login : event) (k : nat) (attempt : Z) : list event :=
  match k with
  | O => []
  | S k' => login :: EvSleep (2 ^ attempt) :: failed_attempts login k' (attempt + 1)
  end.

Definition login_or_sleep (e : event) : bool := is_login e || is_sleep e.


(** The state after one GET to the telemetry endpoint. *)
Definition after_get (cfg : Config) (token : value) (query : params) (s : St) : St :=
  {| n_connect := n_connect s; n_post := n_post s; n_get := S (n_get s);
     n_clock := n_clock s;
     trace := trace s ++ [EvGet (DEVICE_ID cfg) token query] |}.

(** What the fetcher returns for the response it ends with: the parsed body
    under a status that is no error, [None] otherwise. *)
Definition final_result (o : http_outcome) : value :=
  match o with
  | Responded r =>
      if (400 <=? status_code r) && (status_code r <? 600) then VNone
      else match body r with Some b => b | None => VNone end
  | Failed => VNone
  end.

(** ** Sample worlds for the examples *)

Definition sample_cfg : Config :=
  {| USERNAME := Some "tenant@thingsboard.org"; PASSWORD := Some "tenant";
     DEVICE_ID := Some "dev-1"; JWT_TOKEN := None |}.

Definition sample_static_cfg : Config :=
  {| USERNAME := Some "tenant@thingsboard.org"; PASSWORD := Some "tenant";
     DEVICE_ID := Some "dev-1"; JWT_TOKEN := Some "static" |}.

Definition login_ok : http_outcome :=
  Responded {| status_code := 200;
               body := Some (VDict [("token", VStr "fresh");
                                    ("refreshToken", VStr "r1")]) |}.

Definition unauthorized : http_outcome :=
  Responded {| status_code := 401;
               body := Some (VDict [("status", VInt 401);
                                    ("message", VStr "Token has expired")]) |}.

Definition sample_series : value :=
  VDict [ ("Power", VList [ VDict [("ts", VInt 1714000000000); ("value", VStr "231.5")];
                            VDict [("ts", VInt 1713996400000); ("value", VStr "228.0")] ]);
          ("voltage", VList [ VDict [("ts", VInt 1714000000000); ("value", VStr "229.9")] ]) ].

(** The stored token has expired; the login works; the retried GET is
    answered by [retry]. *)
Definition expired_token_world (retry : http_outcome) : World :=
  {| connect := fun _ => true;
     login_post := fun _ => login_ok;
     telemetry_get := fun n => match n with O => unauthorized | _ => retry end;
     clock_ms := fun _ => 1714000000000;
     local_now := fun _ => "2024-04-25 01:06:40";
     local_date := fun _ => "2024-04-25" |}.

Definition server_error : http_outcome :=
  Responded {| status_code := 500;
               body := Some (VDict [("message", VStr "Internal error")]) |}.

(** The state after one reading of the clock. *)
Definition tick (s : St) : St :=
  {| n_connect := n_connect s; n_post := n_post s; n_get := n_get s;
     n_clock := S (n_clock s); trace := trace s |}.

(** A computation that performs no traced effect. *)
Definition silent {A : Type} (m : M A) : Prop :=
  forall s, trace (snd (m s)) = trace s.

(** What a run does to the network when it starts with a token in hand: the
    authenticator is called at most once; the run opens with the probe and,
    if the probe succeeds, with a GET that carries [token]; and unless that
    GET is answered 401 the authenticator is not called and no login is
    posted. *)
Definition login_only_on_401 (w : World) (cfg : Config) (token : value)
  (s : St) (evs : list event) : Prop :=
  (count_events is_authenticate evs <= 1)%nat /\
  (exists rest,
      evs = EvConnect (connect w (n_connect s)) :: rest /\
      (connect w (n_connect s) = true ->
       exists query rest', rest = EvGet (DEVICE_ID cfg) token query :: rest')) /\
  (~ (connect w (n_connect s) = true /\ is_401 (telemetry_get w (n_get s))) ->
   count_events is_authenticate evs = 0%nat /\ count_events is_login evs = 0%nat).

(** Everything works: the probe succeeds, the login works and every GET is
    answered 200 with [sample_series]. *)
Definition healthy_world : World :=
  {| connect := fun _ => true;
     login_post := fun _ => login_ok;
     telemetry_get := fun _ => Responded {| status_code := 200; body := Some sample_series |};
     clock_ms := fun _ => 1714000000000;
     local_now := fun _ => "2024-04-25 01:06:40";
     local_date := fun _ => "2024-04-25" |}.

(** The upstream answers every GET with 200 and an empty JSON object. *)
Definition empty_body_world : World :=
  {| connect := fun _ => true;
     login_post := fun _ => login_ok;
     telemetry_get := fun _ => Responded {| status_code := 200; body := Some (VDict []) |};
     clock_ms := fun _ => 1714000000000;
     local_now := fun _ => "2024-04-25 01:06:40";
     local_date := fun _ => "2024-04-25" |}.

(** What a fetch yields when it failed, or when it succeeded with an empty
    JSON object. *)
Definition nothing_fetched (d : value) : Prop := d = VNone \/ d = VDict [].

(** Every telemetry request among [evs] is for the configured device and
    carries [query]. *)
Definition gets_use (cfg : Config) (query : params) (evs : list event) : Prop :=
  forall device token q,
    In (EvGet device token q) evs -> device = DEVICE_ID cfg /\ q = query.

(** The query of a series handler at clock reading [now]. *)
Definition series_query (now window step count : Z) : params :=
  build_params (Some series_keys) (Some (now - window)) (Some now)
    (Some step) (Some count).

(** The content of a series query: the spellings of the six canonical keys
    and no spelling of the power factor, the interval and the limit, and the
    window from [now - window] to [now].  A bound of the window is missing
    from the query string only when it is the timestamp 0. *)
Definition queries_window (q : params) (now window step count : Z) : Prop :=
  (exists spellings,
      keys q = Some spellings /\
      (forall k, In k spellings <->
                 exists canonical,
                   In canonical ["power"; "voltage"; "current"; "frequency"; "rmp"; "energy"] /\
                   In k (mapping_get canonical [canonical])) /\
      (forall k, In k (mapping_get "powerfact" []) -> ~ In k spellings)) /\
  interval q = Some step /\
  limit q = Some count /\
  (now <> 0 -> endTs q = Some now) /\
  (now - window <> 0 -> startTs q = Some (now - window)).

(** A record of a series: an object with a [ts] and a [value] field. *)
Definition is_sample (e : value) : bool :=
  match e with
  | VDict fields => dict_mem fields "ts" && dict_mem fields "value"
  | _ => false
  end.

Definition is_series (v : value) : bool :=
  match v with
  | VList entries => forallb is_sample entries
  | _ => false
  end.

(** The shape of a telemetry response: a mapping from key names to series of
    records. *)
Definition telemetry_shape (d : dict value) : bool :=
  forallb (fun item => is_series (snd item)) d.

(** The series of a canonical key in a response: the one under the first
    spelling that is present, the empty series when none is. *)
Definition matched_series (d : dict value) (canonical : string) : list value :=
  match find (dict_mem d) (mapping_get canonical [canonical]) with
  | Some name => match dict_get d name with
                 | Some (VList entries) => entries
                 | _ => []
                 end
  | None => []
  end.

Definition sample_field (e : value) (field : string) : value :=
  match e with
  | VDict fields => match dict_get fields field with Some x => x | None => VNone end
  | _ => VNone
  end.

(** The value of a series at index [i], 0 beyond its end. *)
Definition padded (series : list value) (i : nat) : value :=
  match nth_error series i with
  | Some e => sample_field e "value"
  | None => VInt 0
  end.

(** The output record for index [i], as the specification describes it. *)
Definition expected_point (d : dict value) (i : nat) : value :=
  let p := nth i (matched_series d "power") VNone in
  VDict [ ("timestamp", sample_field p "ts");
          ("power", sample_field p "value");
          ("voltage", padded (matched_series d "voltage") i);
          ("current", padded (matched_series d "current") i);
          ("frequency", padded (matched_series d "frequency") i);
          ("rmp", padded (matched_series d "rmp") i);
          ("energy", padded (matched_series d "energy") i) ].

(** The seconds a run spent in [time.sleep]. *)
Fixpoint sleep_seconds (evs : list event) : Z :=
  match evs with
  | [] => 0
  | EvSleep seconds :: rest => seconds + sleep_seconds rest
  | _ :: rest => sleep_seconds rest
  end.

(** The seconds the login loop may sleep over the given attempt numbers. *)
Fixpoint backoff_budget (attempts : list Z) : Z :=
  match attempts with
  | [] => 0
  | attempt :: rest =>
      (if attempt <? 2 then 2 ^ attempt else 0) + backoff_budget rest
  end.

Definition is_dict (v : value) : bool :=
  match v with VDict _ => true | _ => false end.

(** The budget of one call of the authenticator. *)
Definition within_login_budget (evs : list event) : Prop :=
  (count_events is_login evs <= 3)%nat /\
  (count_events is_sleep evs <= count_events is_login evs)%nat /\
  0 <= sleep_seconds evs <= 3 /\
  count_events is_get evs = 0%nat /\
  count_events is_authenticate evs = 1%nat.

(** The budget of one call of the fetcher. *)
Definition within_fetch_budget (evs : list event) : Prop :=
  (count_events is_get evs <= 2)%nat /\
  (count_events is_authenticate evs <= 1)%nat /\
  (count_events is_login evs <= 3)%nat /\
  0 <= sleep_seconds evs <= 3.

(** The budget of one request to a telemetry handler. *)
Definition within_request_budget (evs : list event) : Prop :=
  (count_events is_get evs <= 2)%nat /\
  (count_events is_authenticate evs <= 2)%nat /\
  (count_events is_login evs <= 6)%nat /\
  0 <= sleep_seconds evs <= 6.

(** The objects on which the operator [in] is defined. *)
Definition is_container (v : value) : bool :=
  match v with
  | VDict _ | VList _ | VStr _ => true
  | _ => false
  end.

(** The body of a snapshot response, from the seven extracted pairs, the
    clock reading and the tunnel URL. *)
Definition snapshot_body (power voltage current frequency rmp energy powerfact
                            : float64 * value) (now : Z) (url : value) : value :=
  VDict [ ("power", VFloat (fst power)); ("power_timestamp", snd power);
          ("voltage", VFloat (fst voltage)); ("voltage_timestamp", snd voltage);
          ("current", VFloat (fst current)); ("current_timestamp", snd current);
          ("frequency", VFloat (fst frequency)); ("frequency_timestamp", snd frequency);
          ("rmp", VFloat (fst rmp)); ("rmp_timestamp", snd rmp);
          ("energy", VFloat (fst energy)); ("energy_timestamp", snd energy);
          ("powerfactor", VFloat (fst powerfact)); ("powerfactor_timestamp", snd powerfact);
          ("timestamp", VInt now); ("online", VBool true);
          ("ngrok_url", url) ].

Definition canonical_keys : list string :=
  ["power"; "voltage"; "current"; "frequency"; "rmp"; "energy"; "powerfact"].

Definition ngrok_spellings : list string := ["ngrok_url"; "Ngrok_Url"; "NGROK_URL"].

(** The tunnel URL a spelling gives: the [value] of the first record of its
    entry, when the entry is a list that starts with an object having one. *)
Definition tunnel_url (d : dict value) (key : string) : option value :=
  match dict_get d key with
  | Some (VList (VDict fields :: _)) => dict_get fields "value"
  | _ => None
  end.

(** The 200 response of a series handler. *)
Definition series_response (w : World) (points : list value) (start_ts end_ts : Z)
  (granularity : string) : http_response :=
  (200, VDict [ ("data", VList points);
                ("start_date", VStr (local_date w start_ts));
                ("end_date", VStr (local_date w end_ts));
                ("interval", VStr granularity);
                ("online", VBool true) ]).

(** A series handler after its fetch: the loop decides between the 200
    response and an exception that leaves the view. *)
Definition series_outcome (w : World) (d : dict value) (start_ts end_ts : Z)
  (granularity : string) : result http_response :=
  match series_points (VDict d) with
  | Ok points => Ok (series_response w points start_ts end_ts granularity)
  | Raise e => Raise e
  end.

(** The line [ping_render] prints for an outcome of its GET. *)
Definition ping_line (o : http_outcome) : string -> Ping.line :=
  match o with
  | Responded r =>
      if status_code r =? 200 then Ping.Successful
      else Ping.FailedWithStatus (status_code r)
  | Failed => Ping.PingError
  end.

(** The events of one turn of the pinger: the GET, the line, the sleep. *)
Definition ping_cycle (w : Ping.World) (first_ping first_ctime k : nat)
  : list Ping.event :=
  [ Ping.EvPing;
    Ping.EvPrint (ping_line (Ping.ping_get w (first_ping + k))
                    (Ping.ctime w (first_ctime + k)));
    Ping.EvSleep 180 ].

(** * Properties *)

(** ** Key resolution *)

Section FirstMatch.

Variable present : string -> bool.

Lemma find_first_present names name :
  find present names = Some name <-> first_present present names name.
Proof.
  induction names as [|n rest IH]; simpl.
  - split; [discriminate|].
    intros (before & after & E & _). destruct before; discriminate.
  - destruct (present n) eqn:Pn.
    + split.
      * intros [= <-]. exists [], rest. repeat split; auto. intros v [].
      * intros (before & after & E & Pname & Hb).
        destruct before as [|b before]; simpl in E; injection E as Eb E.
        -- rewrite Eb. reflexivity.
        -- rewrite (Hb n) in Pn by (left; symmetry; exact Eb). discriminate.
    + rewrite IH. split.
      * intros (before & after & -> & Pname & Hb).
        exists (n :: before), after. repeat split; auto.
        intros v [<-|Hv]; auto.
      * intros (before & after & E & Pname & Hb).
        destruct before as [|b before]; simpl in E; injection E as Eb E.
        -- congruence.
        -- exists before, after. repeat split; auto.
           intros v Hv. apply Hb. right. exact Hv.
Qed.

Lemma find_none_present names :
  find present names = None <-> forall v, In v names -> present v = false.
Proof.
  induction names as [|n rest IH]; simpl.
  - split; auto. intros _ v [].
  - destruct (present n) eqn:Pn.
    + split; [discriminate|]. intros H. rewrite (H n) in Pn; auto. discriminate.
    + rewrite IH. split.
      * intros H v [<-|Hv]; auto.
      * intros H v Hv. apply H. right. exact Hv.
Qed.

End FirstMatch.

(** On a dict, [find_matching_key] is a search for the first key present. *)
Lemma find_matching_key_dict (d : dict value) (names : list string) :
  find_matching_key (VDict d) names = Ok (find (dict_mem d) names).
Proof.
  induction names as [|n rest IH]; simpl; [reflexivity|].
  destruct (dict_mem d n); [reflexivity|exact IH].
Qed.

Lemma mapping_get_canonical canonical variants default :
  dict_get TELEMETRY_KEY_MAPPING canonical = Some variants ->
  mapping_get canonical default = variants.
Proof. unfold mapping_get. intros ->. reflexivity. Qed.

(** No spelling of the table is the empty string. *)
Lemma variants_not_empty canonical variants :
  dict_get TELEMETRY_KEY_MAPPING canonical = Some variants ->
  forall v, In v variants -> String.eqb v "" = false.
Proof.
  unfold TELEMETRY_KEY_MAPPING. cbn [dict_get].
  repeat match goal with
         | |- context [String.eqb ?a canonical] => destruct (String.eqb a canonical)
         end;
    cbv iota; intros [= <-] v Hv; simpl in Hv;
    repeat (destruct Hv as [<-|Hv]; [reflexivity|]); destruct Hv.
Qed.

(** C5.  For a canonical key of the mapping table and a response that is a
    mapping, [resolveKey] never raises; it yields a name exactly when that
    name is the first spelling, in the declared order, that is a key of the
    response, and it yields none exactly when no spelling is a key of the
    response.  A response whose only key is ["PF"] resolves [powerfact] to
    ["PF"]. *)
Theorem resolveKey_first_variant :
  forall (d : dict value) (canonical : string) (variants : list string),
    dict_get TELEMETRY_KEY_MAPPING canonical = Some variants ->
    (exists r, resolveKey (VDict d) canonical = Ok r) /\
    (forall name,
        resolveKey (VDict d) canonical = Ok (Some name) <->
        first_present (dict_mem d) variants name) /\
    (resolveKey (VDict d) canonical = Ok None <->
     forall v, In v variants -> dict_mem d v = false) /\
    (forall series, resolveKey (VDict [("PF", series)]) "powerfact" = Ok (Some "PF")).
Proof.
  intros d canonical variants Hc.
  unfold resolveKey. rewrite (mapping_get_canonical _ _ _ Hc), find_matching_key_dict.
  split; [eexists; reflexivity|].
  split; [|split].
  - intros name. rewrite <- find_first_present. split; congruence.
  - rewrite <- find_none_present. split; congruence.
  - intros series. reflexivity.
Qed.

Lemma resolveKey_first_variant_witness :
  dict_get TELEMETRY_KEY_MAPPING "powerfact"
  = Some ["PowerFact"; "PF"; "powerfactor"; "Power_Factor"] /\
  resolveKey (VDict [("powerfactor", VList []); ("PF", VList [])]) "powerfact"
  = Ok (Some "PF").
Proof.
  split; [reflexivity|].
  apply (resolveKey_first_variant
           [("powerfactor", VList []); ("PF", VList [])] "powerfact" _ eq_refl).
  exists ["PowerFact"], ["powerfactor"; "Power_Factor"].
  repeat split. intros v [<-|[]]. reflexivity.
Defined.

(** ** Latest value of a metric *)

(** When a spelling was matched, the result is computed from the first entry
    of its series. *)
Lemma get_value_and_timestamp_matched fs (d : dict value) canonical variants name :
  dict_get TELEMETRY_KEY_MAPPING canonical = Some variants ->
  resolveKey (VDict d) canonical = Ok (Some name) ->
  get_value_and_timestamp fs (VDict d) canonical =
  (let? series := py_get (VDict d) name (VList [VDict []]) in
   let? entry := py_index series 0 in
   let? raw := py_get entry "value" (VFloat fzero) in
   let? value := coerce_value fs raw in
   let? ts := py_get entry "ts" VNone in
   Ok (value, ts)).
Proof.
  intros Hc Hr. unfold get_value_and_timestamp.
  unfold resolveKey in Hr. rewrite Hr. cbn [rbind].
  rewrite (mapping_get_canonical _ _ _ Hc), find_matching_key_dict in Hr.
  injection Hr as Hr. apply find_some in Hr. destruct Hr as [Hin _].
  rewrite (variants_not_empty _ _ Hc _ Hin). reflexivity.
Qed.

(** C1, as amended.  For a canonical key of the mapping table and a response
    that is a mapping: when no spelling of the key is a key of the response,
    the result is [(0.0, None)]; when the matched series is a list that
    starts with an object, the timestamp returned is the [ts] field of that
    object ([None] when it has none) whether or not the value can be coerced,
    and the value returned is the [value] field coerced to a float, [0.0]
    when the coercion fails with a [ValueError] or a [TypeError]. *)
Theorem get_value_and_timestamp_latest :
  forall (fs : string -> option float64) (d : dict value)
         (canonical : string) (variants : list string),
    dict_get TELEMETRY_KEY_MAPPING canonical = Some variants ->
    ((forall v, In v variants -> dict_mem d v = false) ->
     extractLatest fs (VDict d) canonical = Ok (fzero, VNone)) /\
    (forall name fields rest,
        resolveKey (VDict d) canonical = Ok (Some name) ->
        dict_get d name = Some (VList (VDict fields :: rest)) ->
        (forall f, py_float fs (raw_value fields) = Ok f ->
                   extractLatest fs (VDict d) canonical = Ok (f, raw_ts fields)) /\
        (py_float fs (raw_value fields) = Raise ValueError \/
         py_float fs (raw_value fields) = Raise TypeError ->
         extractLatest fs (VDict d) canonical = Ok (fzero, raw_ts fields))).
Proof.
  intros fs d canonical variants Hc. split.
  - intros Habsent. unfold extractLatest, get_value_and_timestamp.
    rewrite (mapping_get_canonical _ _ _ Hc), find_matching_key_dict.
    apply find_none_present in Habsent. rewrite Habsent. reflexivity.
  - intros name fields rest Hr Hseries.
    unfold extractLatest.
    rewrite (get_value_and_timestamp_matched fs _ _ _ _ Hc Hr).
    cbn [py_get rbind]. rewrite Hseries. cbn [py_index nth_error rbind py_get].
    fold (raw_value fields). fold (raw_ts fields). unfold coerce_value.
    split.
    + intros f ->. reflexivity.
    + intros [-> | ->]; reflexivity.
Qed.

Lemma get_value_and_timestamp_latest_witness :
  extractLatest FloatLiteral.float_of_str
    (VDict [("POWER", VList [VDict [("ts", VInt 1714000000000); ("value", VStr "231.5")]])])
    "power"
  = Ok (S754_finite false 8145182138564608 (-45), VInt 1714000000000).
Proof.
  refine (proj1 (proj2 (get_value_and_timestamp_latest FloatLiteral.float_of_str
                   [("POWER", VList [VDict [("ts", VInt 1714000000000);
                                            ("value", VStr "231.5")]])]
                   "power" ["Power"; "power"; "POWER"] eq_refl)
                 "POWER" [("ts", VInt 1714000000000); ("value", VStr "231.5")] []
                 eq_refl eq_refl) _ _).
  vm_compute. reflexivity.
Defined.

(** C1 as stated fails: a value that cannot be coerced gives [0.0], but the
    timestamp of the entry is still returned. *)
Lemma extractLatest_keeps_ts_on_bad_value :
  let data := VDict [("Power", VList [VDict [("value", VStr "n/a");
                                             ("ts", VInt 1714000000000)]])] in
  py_float FloatLiteral.float_of_str (VStr "n/a") = Raise ValueError /\
  extractLatest FloatLiteral.float_of_str data "power" = Ok (fzero, VInt 1714000000000) /\
  extractLatest FloatLiteral.float_of_str data "power" <> Ok (fzero, VNone).
Proof.
  cbv zeta. split; [reflexivity|]. split; [reflexivity|].
  vm_compute. discriminate.
Qed.

(** The matched series may be empty: the subscript [[0]] then raises. *)
Lemma extractLatest_empty_series_raises :
  forall fs, extractLatest fs (VDict [("Power", VList [])]) "power" = Raise IndexError.
Proof. intros fs. reflexivity. Qed.

(** An integer too large for a float raises as well: [OverflowError] is not
    among the exceptions the coercion catches. *)
Lemma extractLatest_huge_integer_raises :
  forall fs,
    extractLatest fs (VDict [("Power", VList [VDict [("value", VInt (10 ^ 400))]])]) "power"
    = Raise OverflowError.
Proof. intros fs. vm_compute. reflexivity. Qed.

(** ** Effects performed by a run *)

Lemma since_app s s' evs : trace s' = trace s ++ evs -> since s s' = evs.
Proof.
  intros E. unfold since. rewrite E.
  rewrite skipn_app, skipn_all, Nat.sub_diag. reflexivity.
Qed.

Lemma since_refl s : since s s = [].
Proof. apply since_app. rewrite app_nil_r. reflexivity. Qed.

Lemma count_events_app p t1 t2 :
  count_events p (t1 ++ t2) = (count_events p t1 + count_events p t2)%nat.
Proof. unfold count_events. rewrite filter_app, length_app. reflexivity. Qed.

(** Brings a computed trace into the form [trace s ++ events]. *)
Ltac trace_normal :=
  cbn [trace emit after_post after_connect after_get n_connect n_post n_get n_clock fst snd];
  repeat rewrite <- app_assoc; cbn [app].

(** ** Health check *)

(** C9.  Whatever the probe answers, [/health] returns status 200 with the
    static status ["running"], the answer of the probe and the local time;
    it never raises. *)
Theorem health_check_always_200 :
  forall (w : World) (s : St),
    fst (health_check w s)
    = Ok (200, VDict [ ("status", VStr "running");
                       ("thingsboard_accessible", VBool (connect w (n_connect s)));
                       ("timestamp", VStr (local_now w (n_clock s))) ]) /\
    since s (snd (health_check w s)) = [EvConnect (connect w (n_connect s))].
Proof.
  intros w s. split; [reflexivity|].
  apply since_app. reflexivity.
Qed.

(** ** Gate of the fetcher *)

(** C7.  Without a token, or when the probe fails, [fetch_telemetry] returns
    [None] and issues no telemetry request. *)
Theorem fetch_telemetry_gate :
  forall (w : World) (cfg : Config) (token : value) (ks : option (list string))
         (start_ts end_ts interval limit : option Z) (s : St),
    truthy token = false \/ connect w (n_connect s) = false ->
    let run := fetch_telemetry w cfg token ks start_ts end_ts interval limit s in
    fst run = Ok VNone /\
    count_events is_get (since s (snd run)) = 0%nat /\
    n_get (snd run) = n_get s.
Proof.
  intros w cfg token ks start_ts end_ts interval limit s H. cbv zeta.
  unfold fetch_telemetry.
  destruct (truthy token) eqn:T; cbn [negb].
  - destruct H as [H|H]; [discriminate|].
    unfold bind, check_internet_connection, socket_create_connection.
    rewrite H. cbn [negb ret fst snd n_get].
    repeat split. erewrite since_app; [|trace_normal; reflexivity]. reflexivity.
  - unfold ret. cbn [fst snd]. rewrite since_refl. repeat split.
Qed.

Lemma fetch_telemetry_gate_witness :
  let w := {| connect := fun _ => false;
              login_post := fun _ => Failed;
              telemetry_get := fun _ => Failed;
              clock_ms := fun _ => 1714000000000;
              local_now := fun _ => "2024-04-25 01:06:40";
              local_date := fun _ => "2024-04-25" |} in
  let cfg := {| USERNAME := Some "tenant@thingsboard.org"; PASSWORD := Some "tenant";
                DEVICE_ID := Some "dev-1"; JWT_TOKEN := None |} in
  let run := fetch_telemetry w cfg (VStr "token") (Some ["power"]) None None None None
               initial in
  fst run = Ok VNone /\
  count_events is_get (since initial (snd run)) = 0%nat /\
  n_get (snd run) = n_get initial.
Proof.
  cbv zeta.
  apply (fetch_telemetry_gate
           {| connect := fun _ => false;
              login_post := fun _ => Failed;
              telemetry_get := fun _ => Failed;
              clock_ms := fun _ => 1714000000000;
              local_now := fun _ => "2024-04-25 01:06:40";
              local_date := fun _ => "2024-04-25" |}).
  right. reflexivity.
Defined.

(** ** Session authenticator *)

Lemma status_error_true z : 400 <= z < 600 -> (400 <=? z) && (z <? 600) = true.
Proof. intros H. apply andb_true_intro. split; [apply Z.leb_le|apply Z.ltb_lt]; lia. Qed.

Lemma status_error_false z : ~ (400 <= z < 600) -> (400 <=? z) && (z <? 600) = false.
Proof.
  intros H. destruct (400 <=? z) eqn:A; [|reflexivity].
  destruct (z <? 600) eqn:B; [|reflexivity].
  apply Z.leb_le in A. apply Z.ltb_lt in B. exfalso. apply H. lia.
Qed.

Lemma login_attempt_state w cfg s :
  snd (login_attempt w cfg s) = after_post cfg s.
Proof.
  unfold login_attempt, bind, http_post.
  destruct (login_post w (n_post s)) as [r|]; [|reflexivity].
  destruct (status_code r =? 401); [reflexivity|].
  unfold lift. destruct (raise_for_status r); [|reflexivity].
  destruct (response_json r) as [j|]; [|reflexivity].
  destruct (py_get j "token" VNone); reflexivity.
Qed.

Lemma login_attempt_401 w cfg s :
  is_401 (login_post w (n_post s)) ->
  login_attempt w cfg s = (Ok VNone, after_post cfg s).
Proof.
  intros (r & E & H). unfold login_attempt, bind, http_post. rewrite E, H. reflexivity.
Qed.

Lemma login_attempt_failure w cfg s :
  request_failure (login_post w (n_post s)) ->
  login_attempt w cfg s = (Raise RequestException, after_post cfg s).
Proof.
  intros [E | (r & E & Hn & H)]; unfold login_attempt, bind, http_post; rewrite E.
  - reflexivity.
  - apply Z.eqb_neq in Hn. rewrite Hn. unfold lift, raise_for_status.
    destruct ((400 <=? status_code r) && (status_code r <? 600)) eqn:B; [reflexivity|].
    destruct H as [H|H].
    + rewrite (status_error_true _ H) in B. discriminate.
    + unfold response_json. rewrite H. reflexivity.
Qed.

Lemma login_attempt_success w cfg s token :
  login_success (login_post w (n_post s)) token ->
  login_attempt w cfg s = (Ok token, after_post cfg s).
Proof.
  intros (r & d & E & Hs & Hb & ->). unfold login_attempt, bind, http_post. rewrite E.
  destruct (status_code r =? 401) eqn:A.
  - apply Z.eqb_eq in A. exfalso. apply Hs. lia.
  - unfold lift, raise_for_status, response_json.
    rewrite (status_error_false _ Hs), Hb. reflexivity.
Qed.

(** A failed attempt sleeps, unless it was the last one, and the loop goes
    on. *)
Lemma login_loop_failure w cfg attempt rest s :
  request_failure (login_post w (n_post s)) ->
  login_loop w cfg (attempt :: rest) s
  = login_loop w cfg rest
      (if attempt <? 2 then emit (EvSleep (2 ^ attempt)) (after_post cfg s)
       else after_post cfg s).
Proof.
  intros H. cbn [login_loop]. rewrite (login_attempt_failure w cfg s H).
  unfold bind. destruct (attempt <? 2); reflexivity.
Qed.

Lemma login_loop_401 w cfg attempt rest s :
  is_401 (login_post w (n_post s)) ->
  login_loop w cfg (attempt :: rest) s = (Ok VNone, after_post cfg s).
Proof. intros H. cbn [login_loop]. rewrite (login_attempt_401 w cfg s H). reflexivity. Qed.

Lemma login_loop_success w cfg attempt rest s token :
  login_success (login_post w (n_post s)) token ->
  login_loop w cfg (attempt :: rest) s = (Ok token, after_post cfg s).
Proof.
  intros H. cbn [login_loop]. rewrite (login_attempt_success w cfg s token H). reflexivity.
Qed.

Lemma get_auth_token_online w cfg s :
  connect w (n_connect s) = true ->
  get_auth_token w cfg s
  = login_loop w cfg [0; 1; 2] (after_connect true (emit EvAuthenticate s)).
Proof.
  intros H. unfold get_auth_token, bind, check_internet_connection,
    socket_create_connection. cbn [emit n_connect]. rewrite H. reflexivity.
Qed.

(** The loop only logs in and sleeps, logs in at most once per attempt, and
    lets no [RequestException] out. *)
Lemma login_loop_effects w cfg attempts :
  forall s,
    let run := login_loop w cfg attempts s in
    exists evs,
      trace (snd run) = trace s ++ evs /\
      forallb login_or_sleep evs = true /\
      (count_events is_login evs <= List.length attempts)%nat /\
      n_get (snd run) = n_get s /\
      n_clock (snd run) = n_clock s /\
      n_connect (snd run) = n_connect s /\
      fst run <> Raise RequestException.
Proof.
  induction attempts as [|attempt rest IH]; intros s; cbv zeta.
  - exists []. cbn. rewrite app_nil_r. repeat split; try lia. discriminate.
  - cbn [login_loop].
    pose proof (login_attempt_state w cfg s) as Hs.
    destruct (login_attempt w cfg s) as [r s1]. cbn [snd] in Hs. subst s1.
    assert (Hstop : forall r' : result value, r' <> Raise RequestException ->
      exists evs,
        trace (snd (r', after_post cfg s)) = trace s ++ evs /\
        forallb login_or_sleep evs = true /\
        (count_events is_login evs <= List.length (attempt :: rest))%nat /\
        n_get (snd (r', after_post cfg s)) = n_get s /\
        n_clock (snd (r', after_post cfg s)) = n_clock s /\
        n_connect (snd (r', after_post cfg s)) = n_connect s /\
        fst (r', after_post cfg s) <> Raise RequestException).
    { intros r' Hr'. exists [EvLogin (USERNAME cfg) (PASSWORD cfg)].
      cbn. repeat split; try lia. exact Hr'. }
    destruct r as [v|e]; [apply Hstop; discriminate|].
    destruct e; try (apply Hstop; discriminate).
    unfold bind.
    destruct (attempt <? 2).
    + cbn [time_sleep].
      destruct (IH (emit (EvSleep (2 ^ attempt)) (after_post cfg s)))
        as (evs & Ht & Hall & Hc & Hg & Hk & Hn & Hr).
      exists (EvLogin (USERNAME cfg) (PASSWORD cfg) :: EvSleep (2 ^ attempt) :: evs).
      rewrite Ht. trace_normal. rewrite Hg, Hk, Hn. cbn [emit after_post n_get n_clock n_connect].
      repeat split; auto.
      change (count_events is_login
                (EvLogin (USERNAME cfg) (PASSWORD cfg) :: EvSleep (2 ^ attempt) :: evs))
        with (S (count_events is_login evs)).
      cbn [List.length]. lia.
    + cbn [ret].
      destruct (IH (after_post cfg s)) as (evs & Ht & Hall & Hc & Hg & Hk & Hn & Hr).
      exists (EvLogin (USERNAME cfg) (PASSWORD cfg) :: evs).
      rewrite Ht. trace_normal. rewrite Hg, Hk, Hn. cbn [after_post n_get n_clock n_connect].
      repeat split; auto.
      change (count_events is_login (EvLogin (USERNAME cfg) (PASSWORD cfg) :: evs))
        with (S (count_events is_login evs)).
      cbn [List.length]. lia.
Qed.

(** One call of [get_auth_token]: its own mark, the probe, then only
    logins and sleeps. *)
Lemma get_auth_token_effects w cfg s :
  let run := get_auth_token w cfg s in
  exists evs,
    trace (snd run)
    = trace s ++ EvAuthenticate :: EvConnect (connect w (n_connect s)) :: evs /\
    forallb login_or_sleep evs = true /\
    (count_events is_login evs <= 3)%nat /\
    (connect w (n_connect s) = false -> evs = []) /\
    n_get (snd run) = n_get s /\
    n_clock (snd run) = n_clock s /\
    n_connect (snd run) = S (n_connect s) /\
    fst run <> Raise RequestException.
Proof.
  cbv zeta. destruct (connect w (n_connect s)) eqn:C.
  - rewrite (get_auth_token_online w cfg s C).
    destruct (login_loop_effects w cfg [0; 1; 2]
                (after_connect true (emit EvAuthenticate s)))
      as (evs & Ht & Hall & Hc & Hg & Hk & Hn & Hr).
    exists evs. rewrite Ht, Hg, Hk, Hn. trace_normal.
    repeat split; auto. discriminate.
  - exists []. unfold get_auth_token, bind, check_internet_connection,
      socket_create_connection. cbn [emit n_connect]. rewrite C. cbn.
    rewrite <- app_assoc. repeat split; auto. discriminate.
Qed.

(** C4.  With connectivity available, let the first [k <= 2] login attempts
    fail with a request failure other than a 401.  Each of them is followed
    by a sleep of [2 ^ attempt] seconds (1 s, then 2 s).  If attempt [k]
    is answered 401, the result is [None] and nothing is tried after it; if
    attempt [k] succeeds, the result is the [token] field of its JSON body;
    if the third attempt fails as well, the result is [None] with no further
    sleep.  No run logs in more than three times. *)
Theorem get_auth_token_attempts :
  forall (w : World) (cfg : Config) (s : St),
    connect w (n_connect s) = true ->
    let run := get_auth_token w cfg s in
    let outcome (k : nat) := login_post w (k + n_post s) in
    let login := EvLogin (USERNAME cfg) (PASSWORD cfg) in
    let prologue := [EvAuthenticate; EvConnect true] in
    (count_events is_login (since s (snd run)) <= 3)%nat /\
    forall k : nat,
      (k <= 2)%nat ->
      (forall j, (j < k)%nat -> request_failure (outcome j)) ->
      (is_401 (outcome k) ->
       fst run = Ok VNone /\
       since s (snd run) = prologue ++ failed_attempts login k 0 ++ [login]) /\
      (forall token,
          login_success (outcome k) token ->
          fst run = Ok token /\
          since s (snd run) = prologue ++ failed_attempts login k 0 ++ [login]) /\
      (k = 2%nat -> request_failure (outcome k) ->
       fst run = Ok VNone /\
       since s (snd run) = prologue ++ failed_attempts login k 0 ++ [login]).
Proof.
  intros w cfg s C. cbv zeta. split.
  - destruct (get_auth_token_effects w cfg s) as (evs & Ht & _ & Hc & _).
    rewrite (since_app _ _ _ Ht).
    change (count_events is_login (EvAuthenticate :: EvConnect (connect w (n_connect s)) :: evs))
      with (count_events is_login evs). exact Hc.
  - intros k Hk Hfail. rewrite (get_auth_token_online w cfg s C).
    set (s0 := after_connect true (emit EvAuthenticate s)).
    assert (N0 : n_post s0 = n_post s) by reflexivity.
    destruct k as [|[|[|k]]]; try lia.
    + (* the first attempt decides *)
      split; [|split].
      * intros H. rewrite login_loop_401 by (rewrite N0; exact H).
        split; [reflexivity|]. apply since_app. subst s0. trace_normal. reflexivity.
      * intros token H.
        rewrite (login_loop_success w cfg _ _ s0 token) by (rewrite N0; exact H).
        split; [reflexivity|]. apply since_app. subst s0. trace_normal. reflexivity.
      * intros E. discriminate.
    + (* one failure, then the second attempt decides *)
      rewrite login_loop_failure by (rewrite N0; apply (Hfail 0%nat); lia).
      change (0 <? 2) with true. cbv iota.
      set (s1 := emit (EvSleep (2 ^ 0)) (after_post cfg s0)).
      assert (N1 : n_post s1 = (1 + n_post s)%nat) by reflexivity.
      split; [|split].
      * intros H. rewrite login_loop_401 by (rewrite N1; exact H).
        split; [reflexivity|]. apply since_app. subst s1 s0. trace_normal. reflexivity.
      * intros token H.
        rewrite (login_loop_success w cfg _ _ s1 token) by (rewrite N1; exact H).
        split; [reflexivity|]. apply since_app. subst s1 s0. trace_normal. reflexivity.
      * intros E. discriminate.
    + (* two failures, then the third attempt *)
      rewrite login_loop_failure by (rewrite N0; apply (Hfail 0%nat); lia).
      change (0 <? 2) with true. cbv iota.
      set (s1 := emit (EvSleep (2 ^ 0)) (after_post cfg s0)).
      assert (N1 : n_post s1 = (1 + n_post s)%nat) by reflexivity.
      rewrite login_loop_failure by (rewrite N1; apply (Hfail 1%nat); lia).
      change (1 <? 2) with true. cbv iota.
      set (s2 := emit (EvSleep (2 ^ 1)) (after_post cfg s1)).
      assert (N2 : n_post s2 = (2 + n_post s)%nat) by reflexivity.
      split; [|split].
      * intros H. rewrite login_loop_401 by (rewrite N2; exact H).
        split; [reflexivity|]. apply since_app. subst s2 s1 s0. trace_normal. reflexivity.
      * intros token H.
        rewrite (login_loop_success w cfg _ _ s2 token) by (rewrite N2; exact H).
        split; [reflexivity|]. apply since_app. subst s2 s1 s0. trace_normal. reflexivity.
      * intros _ H. rewrite login_loop_failure by (rewrite N2; exact H).
        change (2 <? 2) with false. cbv iota. cbn [login_loop ret fst snd].
        split; [reflexivity|]. apply since_app. subst s2 s1 s0. trace_normal. reflexivity.
Qed.

(** Three time-outs in a row: sleeps of 1 s and 2 s, result [None]. *)
Lemma get_auth_token_attempts_witness :
  let w := {| connect := fun _ => true;
              login_post := fun _ => Failed;
              telemetry_get := fun _ => Failed;
              clock_ms := fun _ => 1714000000000;
              local_now := fun _ => "2024-04-25 01:06:40";
              local_date := fun _ => "2024-04-25" |} in
  let cfg := {| USERNAME := Some "tenant@thingsboard.org"; PASSWORD := Some "tenant";
                DEVICE_ID := Some "dev-1"; JWT_TOKEN := None |} in
  let login := EvLogin (Some "tenant@thingsboard.org") (Some "tenant") in
  fst (get_auth_token w cfg initial) = Ok VNone /\
  since initial (snd (get_auth_token w cfg initial))
  = [EvAuthenticate; EvConnect true; login; EvSleep 1; login; EvSleep 2; login].
Proof.
  cbv zeta.
  refine (proj2 (proj2 (proj2 (get_auth_token_attempts
            {| connect := fun _ => true;
               login_post := fun _ => Failed;
               telemetry_get := fun _ => Failed;
               clock_ms := fun _ => 1714000000000;
               local_now := fun _ => "2024-04-25 01:06:40";
               local_date := fun _ => "2024-04-25" |}
            {| USERNAME := Some "tenant@thingsboard.org"; PASSWORD := Some "tenant";
               DEVICE_ID := Some "dev-1"; JWT_TOKEN := None |}
            initial eq_refl) 2%nat _ _)) eq_refl _).
  - lia.
  - intros j _. left. reflexivity.
  - left. reflexivity.
Defined.

(** ** Token refresh in the fetcher *)

Lemma http_get_run w cfg token query s :
  http_get w cfg token query s
  = (match telemetry_get w (n_get s) with
     | Responded r => Ok r
     | Failed => Raise RequestException
     end, after_get cfg token query s).
Proof. unfold http_get. destruct (telemetry_get w (n_get s)); reflexivity. Qed.

(** The last two statements of the [try], followed by the handler. *)
Lemma finish_fetch (r : response) (s : St) :
  except_request
    (lift (raise_for_status r) ;;; lift (response_json r)) (ret VNone) s
  = (Ok (final_result (Responded r)), s).
Proof.
  unfold except_request, bind, lift, raise_for_status, response_json, final_result, ret.
  destruct ((400 <=? status_code r) && (status_code r <? 600)); [reflexivity|].
  destruct (body r); reflexivity.
Qed.

Lemma count_login_or_sleep p evs :
  (forall e, login_or_sleep e = true -> p e = false) ->
  forallb login_or_sleep evs = true -> count_events p evs = 0%nat.
Proof.
  intros Hp. induction evs as [|e evs IH]; [reflexivity|].
  cbn [forallb]. intros H. apply andb_prop in H. destruct H as [He Hevs].
  unfold count_events. cbn [filter]. rewrite (Hp e He). apply IH. exact Hevs.
Qed.

Lemma login_or_sleep_not_get e : login_or_sleep e = true -> is_get e = false.
Proof. destruct e; cbn; congruence. Qed.

Lemma login_or_sleep_not_authenticate e :
  login_or_sleep e = true -> is_authenticate e = false.
Proof. destruct e; cbn; congruence. Qed.

(** The fetcher once the first GET was answered 401. *)
Lemma fetch_telemetry_on_401 w cfg token ks start_ts end_ts interval limit s r0 :
  truthy token = true ->
  connect w (n_connect s) = true ->
  telemetry_get w (n_get s) = Responded r0 ->
  status_code r0 = 401 ->
  let query := build_params ks start_ts end_ts interval limit in
  let s0 := after_get cfg token query (after_connect true s) in
  let auth := get_auth_token w cfg s0 in
  fetch_telemetry w cfg token ks start_ts end_ts interval limit s
  = match fst auth with
    | Ok new_token =>
        if truthy new_token then
          (Ok (final_result (telemetry_get w (S (n_get s)))),
           after_get cfg new_token query (snd auth))
        else (Ok VNone, snd auth)
    | Raise e => (Raise e, snd auth)
    end.
Proof.
  intros T C G S401. cbv zeta.
  unfold fetch_telemetry. rewrite T. cbn [negb].
  unfold bind at 1. unfold check_internet_connection, socket_create_connection.
  rewrite C. cbn [negb]. fold (after_connect true s).
  unfold except_request, bind.
  rewrite http_get_run. cbn [after_connect n_get]. rewrite G, S401.
  change (401 =? 401) with true. cbv iota.
  set (s0 := after_get cfg token _ _).
  destruct (get_auth_token_effects w cfg s0) as (evs & _ & _ & _ & _ & Hg & _ & _ & Hr).
  destruct (get_auth_token w cfg s0) as [[new_token|e] sa]; cbn [fst snd] in *.
  - destruct (truthy new_token).
    + rewrite http_get_run, Hg. subst s0. cbn [after_get n_get after_connect].
      destruct (telemetry_get w (S (n_get s))) as [r|]; [|reflexivity].
      unfold lift, raise_for_status, response_json, final_result.
      destruct ((400 <=? status_code r) && (status_code r <? 600)); [reflexivity|].
      destruct (body r); reflexivity.
    + unfold ret, lift, raise_for_status. rewrite S401. reflexivity.
  - destruct e; try reflexivity. exfalso. apply Hr. reflexivity.
Qed.

(** C3, as amended.  When the first GET is answered 401, the fetcher calls
    the authenticator exactly once and issues at most two GETs, whatever the
    responses.  If the re-authentication yields a token, exactly one more GET
    is issued, with the new token, and the result is its parsed body when it
    is answered with a status that is no error and a JSON body, [None] when
    that retried call fails.  If the re-authentication yields no token, no
    GET is retried and the result is [None]. *)
Theorem fetch_telemetry_refresh_once :
  forall (w : World) (cfg : Config) (token : value) (ks : option (list string))
         (start_ts end_ts interval limit : option Z) (s : St) (r0 : response),
    truthy token = true ->
    connect w (n_connect s) = true ->
    telemetry_get w (n_get s) = Responded r0 ->
    status_code r0 = 401 ->
    let query := build_params ks start_ts end_ts interval limit in
    let run := fetch_telemetry w cfg token ks start_ts end_ts interval limit s in
    let s0 := after_get cfg token query (after_connect true s) in
    let auth := get_auth_token w cfg s0 in
    let first_get := [EvConnect true; EvGet (DEVICE_ID cfg) token query] in
    count_events is_authenticate (since s (snd run)) = 1%nat /\
    (count_events is_get (since s (snd run)) <= 2)%nat /\
    (forall new_token,
        fst auth = Ok new_token -> truthy new_token = true ->
        fst run = Ok (final_result (telemetry_get w (S (n_get s)))) /\
        since s (snd run)
        = first_get ++ since s0 (snd auth) ++ [EvGet (DEVICE_ID cfg) new_token query]) /\
    (forall new_token,
        fst auth = Ok new_token -> truthy new_token = false ->
        fst run = Ok VNone /\
        since s (snd run) = first_get ++ since s0 (snd auth)).
Proof.
  intros w cfg token ks start_ts end_ts interval limit s r0 T C G S401. cbv zeta.
  rewrite (fetch_telemetry_on_401 w cfg token ks start_ts end_ts interval limit s r0
             T C G S401).
  set (query := build_params ks start_ts end_ts interval limit).
  set (s0 := after_get cfg token query (after_connect true s)).
  destruct (get_auth_token_effects w cfg s0) as (evs & Ht & Hall & _).
  pose proof (count_login_or_sleep is_get evs login_or_sleep_not_get Hall) as Hget.
  pose proof (count_login_or_sleep is_authenticate evs
                login_or_sleep_not_authenticate Hall) as Hauth.
  rewrite (since_app _ _ _ Ht).
  assert (Hs0 : trace s0 = trace s ++ [EvConnect true; EvGet (DEVICE_ID cfg) token query]).
  { subst s0. trace_normal. reflexivity. }
  set (tail := EvAuthenticate :: EvConnect (connect w (n_connect s0)) :: evs) in *.
  assert (Ctail_get : count_events is_get tail = 0%nat) by exact Hget.
  assert (Ctail_auth : count_events is_authenticate tail = 1%nat).
  { change (count_events is_authenticate tail)
      with (S (count_events is_authenticate evs)). rewrite Hauth. reflexivity. }
  destruct (get_auth_token w cfg s0) as [[new_token|e] sa]; cbn [fst snd] in *.
  - destruct (truthy new_token) eqn:Tn.
    + assert (E : since s (after_get cfg new_token query sa)
                  = [EvConnect true; EvGet (DEVICE_ID cfg) token query] ++ tail
                    ++ [EvGet (DEVICE_ID cfg) new_token query]).
      { apply since_app. cbn [after_get trace]. rewrite Ht, Hs0.
        repeat rewrite <- app_assoc. reflexivity. }
      cbn [fst snd]. rewrite E.
      split; [|split; [|split]].
      * rewrite !count_events_app, Ctail_auth. reflexivity.
      * rewrite !count_events_app, Ctail_get. cbn. lia.
      * intros t [= <-] _. split; reflexivity.
      * intros t [= <-] F. congruence.
    + assert (E : since s sa
                  = [EvConnect true; EvGet (DEVICE_ID cfg) token query] ++ tail).
      { apply since_app. rewrite Ht, Hs0. repeat rewrite <- app_assoc. reflexivity. }
      cbn [fst snd]. rewrite E.
      split; [|split; [|split]].
      * rewrite !count_events_app, Ctail_auth. reflexivity.
      * rewrite !count_events_app, Ctail_get. cbn. lia.
      * intros t [= <-] F. congruence.
      * intros t [= <-] _. split; reflexivity.
  - assert (E : since s sa
                = [EvConnect true; EvGet (DEVICE_ID cfg) token query] ++ tail).
    { apply since_app. rewrite Ht, Hs0. repeat rewrite <- app_assoc. reflexivity. }
    cbn [fst snd]. rewrite E.
    split; [|split; [|split]].
    + rewrite !count_events_app, Ctail_auth. reflexivity.
    + rewrite !count_events_app, Ctail_get. cbn. lia.
    + intros t [=].
    + intros t [=].
Qed.

Lemma fetch_telemetry_refresh_once_witness :
  let w := expired_token_world
             (Responded {| status_code := 200; body := Some sample_series |}) in
  let query := build_params (Some ["power"]) None None None None in
  let run := fetch_telemetry w sample_cfg (VStr "stale") (Some ["power"])
               None None None None initial in
  fst run = Ok sample_series /\
  since initial (snd run)
  = [ EvConnect true; EvGet (Some "dev-1") (VStr "stale") query;
      EvAuthenticate; EvConnect true;
      EvLogin (Some "tenant@thingsboard.org") (Some "tenant");
      EvGet (Some "dev-1") (VStr "fresh") query ].
Proof.
  cbv zeta.
  exact (proj1 (proj2 (proj2 (fetch_telemetry_refresh_once
           (expired_token_world
              (Responded {| status_code := 200; body := Some sample_series |}))
           sample_cfg (VStr "stale") (Some ["power"]) None None None None initial
           {| status_code := 401;
              body := Some (VDict [("status", VInt 401);
                                   ("message", VStr "Token has expired")]) |}
           eq_refl eq_refl eq_refl eq_refl)))
         (VStr "fresh") eq_refl eq_refl).
Defined.

(** C3 as stated fails: the re-authentication succeeds, the retried GET is
    answered 500 with a JSON body, and the fetcher returns [None], not that
    body. *)
Lemma fetch_telemetry_retry_error_gives_none :
  let w := expired_token_world server_error in
  let query := build_params (Some ["power"]) None None None None in
  let run := fetch_telemetry w sample_cfg (VStr "stale") (Some ["power"])
               None None None None initial in
  fst (get_auth_token w sample_cfg
         (after_get sample_cfg (VStr "stale") query (after_connect true initial)))
  = Ok (VStr "fresh") /\
  telemetry_get w 1
  = Responded {| status_code := 500;
                 body := Some (VDict [("message", VStr "Internal error")]) |} /\
  fst run = Ok VNone /\
  fst run <> Ok (VDict [("message", VStr "Internal error")]) /\
  since initial (snd run)
  = [ EvConnect true; EvGet (Some "dev-1") (VStr "stale") query;
      EvAuthenticate; EvConnect true;
      EvLogin (Some "tenant@thingsboard.org") (Some "tenant");
      EvGet (Some "dev-1") (VStr "fresh") query ].
Proof.
  cbv zeta. repeat split; try reflexivity. vm_compute. discriminate.
Qed.

(** ** The fetcher when the first GET is not answered 401 *)

Lemma fetch_telemetry_offline w cfg token ks start_ts end_ts interval limit s :
  truthy token = true ->
  connect w (n_connect s) = false ->
  fetch_telemetry w cfg token ks start_ts end_ts interval limit s
  = (Ok VNone, after_connect false s).
Proof.
  intros T C. unfold fetch_telemetry. rewrite T. cbn [negb].
  unfold bind, check_internet_connection, socket_create_connection.
  rewrite C. reflexivity.
Qed.

Lemma fetch_telemetry_no_401 w cfg token ks start_ts end_ts interval limit s :
  truthy token = true ->
  connect w (n_connect s) = true ->
  ~ is_401 (telemetry_get w (n_get s)) ->
  fetch_telemetry w cfg token ks start_ts end_ts interval limit s
  = (Ok (final_result (telemetry_get w (n_get s))),
     after_get cfg token (build_params ks start_ts end_ts interval limit)
       (after_connect true s)).
Proof.
  intros T C N. unfold fetch_telemetry. rewrite T. cbn [negb].
  unfold bind at 1. unfold check_internet_connection, socket_create_connection.
  rewrite C. cbn [negb]. fold (after_connect true s).
  unfold except_request, bind. rewrite http_get_run. cbn [after_connect n_get].
  destruct (telemetry_get w (n_get s)) as [r|] eqn:G; [|reflexivity].
  destruct (status_code r =? 401) eqn:E.
  - exfalso. apply N. exists r. split; [reflexivity|]. apply Z.eqb_eq. exact E.
  - unfold ret, lift, raise_for_status, response_json, final_result.
    destruct ((400 <=? status_code r) && (status_code r <? 600)); [reflexivity|].
    destruct (body r); reflexivity.
Qed.

Lemma is_401_dec (o : http_outcome) : is_401 o \/ ~ is_401 o.
Proof.
  destruct o as [r|].
  - destruct (Z.eq_dec (status_code r) 401) as [E|E].
    + left. exists r. auto.
    + right. intros (r' & [= <-] & H). contradiction.
  - right. intros (r' & [=] & _).
Qed.

(** After a 401 the run goes on with exactly one call of the authenticator. *)
Lemma refresh_after_401_events
  w cfg token ks start_ts end_ts interval limit s r0 :
  truthy token = true ->
  connect w (n_connect s) = true ->
  telemetry_get w (n_get s) = Responded r0 ->
  status_code r0 = 401 ->
  exists tail,
    since s (snd (fetch_telemetry w cfg token ks start_ts end_ts interval limit s))
    = EvConnect true
        :: EvGet (DEVICE_ID cfg) token (build_params ks start_ts end_ts interval limit)
        :: tail /\
    count_events is_authenticate tail = 1%nat.
Proof.
  intros T C G S401.
  rewrite (fetch_telemetry_on_401 w cfg token ks start_ts end_ts interval limit s r0
             T C G S401).
  set (query := build_params ks start_ts end_ts interval limit).
  set (s0 := after_get cfg token query (after_connect true s)).
  destruct (get_auth_token_effects w cfg s0) as (evs & Ht & Hall & _).
  pose proof (count_login_or_sleep is_authenticate evs
                login_or_sleep_not_authenticate Hall) as Hauth.
  assert (Hs0 : trace s0 = trace s ++ [EvConnect true; EvGet (DEVICE_ID cfg) token query]).
  { subst s0. trace_normal. reflexivity. }
  set (tail := EvAuthenticate :: EvConnect (connect w (n_connect s0)) :: evs) in *.
  assert (Ctail : count_events is_authenticate tail = 1%nat).
  { change (count_events is_authenticate tail)
      with (S (count_events is_authenticate evs)). rewrite Hauth. reflexivity. }
  destruct (get_auth_token w cfg s0) as [[new_token|e] sa]; cbn [fst snd] in *.
  - destruct (truthy new_token).
    + exists (tail ++ [EvGet (DEVICE_ID cfg) new_token query]). split.
      * apply since_app. cbn [after_get trace snd]. rewrite Ht, Hs0.
        repeat rewrite <- app_assoc. reflexivity.
      * rewrite count_events_app, Ctail. reflexivity.
    + exists tail. split; [|exact Ctail].
      apply since_app. cbn [snd]. rewrite Ht, Hs0.
      repeat rewrite <- app_assoc. reflexivity.
  - exists tail. split; [|exact Ctail].
    apply since_app. cbn [snd]. rewrite Ht, Hs0.
    repeat rewrite <- app_assoc. reflexivity.
Qed.

(** With a token in hand, the fetcher logs in only after a 401. *)
Lemma fetch_telemetry_login_only_on_401
  w cfg token ks start_ts end_ts interval limit s :
  truthy token = true ->
  login_only_on_401 w cfg token s
    (since s (snd (fetch_telemetry w cfg token ks start_ts end_ts interval limit s))).
Proof.
  intros T. unfold login_only_on_401.
  destruct (connect w (n_connect s)) eqn:C.
  - destruct (is_401_dec (telemetry_get w (n_get s))) as [H401|N].
    + destruct H401 as (r0 & G & S401).
      destruct (refresh_after_401_events w cfg token ks start_ts end_ts
                  interval limit s r0 T C G S401) as (tail & E & Hauth).
      rewrite E. split; [|split].
      * change (count_events is_authenticate (EvConnect true :: EvGet (DEVICE_ID cfg) token
                  (build_params ks start_ts end_ts interval limit) :: tail))
          with (count_events is_authenticate tail). lia.
      * eexists. split; [reflexivity|]. intros _. eexists _, _. reflexivity.
      * intros H. exfalso. apply H. split; [reflexivity|]. exists r0. auto.
    + rewrite (fetch_telemetry_no_401 w cfg token ks start_ts end_ts interval limit s T C N).
      erewrite since_app; [|trace_normal; reflexivity].
      split; [|split].
      * cbn. lia.
      * eexists. split; [reflexivity|]. intros _. eexists _, _. reflexivity.
      * intros _. split; reflexivity.
  - rewrite (fetch_telemetry_offline w cfg token ks start_ts end_ts interval limit s T C).
    erewrite since_app; [|trace_normal; reflexivity].
    split; [|split].
    + cbn. lia.
    + eexists. split; [reflexivity|]. intros [=].
    + intros _. split; reflexivity.
Qed.

(** ** Handlers that start with the static token *)

Lemma silent_ret {A : Type} (a : A) : silent (ret a).
Proof. intros s. reflexivity. Qed.

Lemma silent_lift {A : Type} (r : result A) : silent (lift r).
Proof. intros s. reflexivity. Qed.

Lemma silent_time_ms w : silent (time_ms w).
Proof. intros s. reflexivity. Qed.

Lemma silent_bind {A B : Type} (m : M A) (k : A -> M B) :
  silent m -> (forall a, silent (k a)) -> silent (bind m k).
Proof.
  intros Hm Hk s. unfold bind. specialize (Hm s).
  destruct (m s) as [[a|e] s']; cbn [snd] in *.
  - rewrite Hk. exact Hm.
  - exact Hm.
Qed.

(** A silent continuation leaves the trace of the first part. *)
Lemma bind_silent_tail {A B : Type} (m : M A) (k : A -> M B) s :
  (forall a, silent (k a)) ->
  trace (snd (bind m k s)) = trace (snd (m s)).
Proof.
  intros Hk. unfold bind. destruct (m s) as [[a|e] s']; cbn [snd].
  - apply Hk.
  - reflexivity.
Qed.

Ltac silence :=
  repeat first
    [ apply silent_ret
    | apply silent_lift
    | apply silent_time_ms
    | apply silent_bind; [|intros ?]
    | match goal with
      | |- silent (if ?b then _ else _) => destruct b
      | |- silent (let '(_, _) := ?p in _) => destruct p
      end ].

Lemma silent_process_telemetry_data fs w d : silent (process_telemetry_data fs w d).
Proof. unfold process_telemetry_data. silence. Qed.

Lemma silent_get_time_range w days : silent (get_time_range w days).
Proof. unfold get_time_range. silence. Qed.

Lemma get_time_range_run w days s :
  get_time_range w days s
  = (Ok (clock_ms w (n_clock s) - days * 24 * 60 * 60 * 1000, clock_ms w (n_clock s)),
     tick s).
Proof. reflexivity. Qed.

Lemma since_same_trace s1 s2 s' : trace s1 = trace s2 -> since s1 s' = since s2 s'.
Proof. intros E. unfold since. rewrite E. reflexivity. Qed.

Lemma truthy_static_token tok : tok <> "" -> truthy (VStr tok) = true.
Proof.
  intros H. cbn. destruct (String.eqb tok "") eqn:E; [|reflexivity].
  apply String.eqb_eq in E. contradiction.
Qed.

Lemma obtain_token_static w cfg tok s :
  JWT_TOKEN cfg = Some tok -> tok <> "" ->
  obtain_token w cfg s = (Ok (VStr tok), s).
Proof.
  intros J H. unfold obtain_token. rewrite J. cbn [opt_str].
  rewrite (truthy_static_token tok H). reflexivity.
Qed.

(** With a static token, the events of each handler are those of its call of
    the fetcher. *)
Lemma get_telemetry_static_events fs w cfg tok s :
  JWT_TOKEN cfg = Some tok -> tok <> "" ->
  since s (snd (get_telemetry fs w cfg s))
  = since s (snd (fetch_telemetry w cfg (VStr tok) (Some snapshot_keys)
                    None None None None s)).
Proof.
  intros J H. unfold since. f_equal.
  unfold get_telemetry. unfold bind at 1.
  rewrite (obtain_token_static w cfg tok s J H), (truthy_static_token tok H).
  cbn [negb]. apply bind_silent_tail. intros d. silence.
  apply silent_process_telemetry_data.
Qed.

Lemma get_weekly_telemetry_static_events w cfg tok s :
  JWT_TOKEN cfg = Some tok -> tok <> "" ->
  since s (snd (get_weekly_telemetry w cfg s))
  = since (tick s)
      (snd (fetch_telemetry w cfg (VStr tok) (Some series_keys)
              (Some (clock_ms w (n_clock s) - 7 * 24 * 60 * 60 * 1000))
              (Some (clock_ms w (n_clock s))) (Some 3600000) (Some 168) (tick s))).
Proof.
  intros J H. unfold since. f_equal.
  unfold get_weekly_telemetry. unfold bind at 1.
  rewrite (obtain_token_static w cfg tok s J H), (truthy_static_token tok H).
  cbn [negb]. unfold bind at 1. rewrite get_time_range_run.
  apply bind_silent_tail. intros d. silence.
Qed.

Lemma get_monthly_telemetry_static_events w cfg tok s :
  JWT_TOKEN cfg = Some tok -> tok <> "" ->
  since s (snd (get_monthly_telemetry w cfg s))
  = since (tick s)
      (snd (fetch_telemetry w cfg (VStr tok) (Some series_keys)
              (Some (clock_ms w (n_clock s) - 30 * 24 * 60 * 60 * 1000))
              (Some (clock_ms w (n_clock s))) (Some 86400000) (Some 30) (tick s))).
Proof.
  intros J H. unfold since. f_equal.
  unfold get_monthly_telemetry. unfold bind at 1.
  rewrite (obtain_token_static w cfg tok s J H), (truthy_static_token tok H).
  cbn [negb]. unfold bind at 1. rewrite get_time_range_run.
  apply bind_silent_tail. intros d. silence.
Qed.

(** C6, as amended.  When a non-empty static token is configured, each of
    the three telemetry handlers uses it for its first GET without calling
    the authenticator; the authenticator is called, at most once, only after
    that GET was answered 401, and otherwise no login is posted. *)
Theorem static_token_login_only_on_401 :
  forall (fs : string -> option float64) (w : World) (cfg : Config)
         (tok : string) (s : St),
    JWT_TOKEN cfg = Some tok -> tok <> "" ->
    login_only_on_401 w cfg (VStr tok) s (since s (snd (get_telemetry fs w cfg s))) /\
    login_only_on_401 w cfg (VStr tok) s (since s (snd (get_weekly_telemetry w cfg s))) /\
    login_only_on_401 w cfg (VStr tok) s (since s (snd (get_monthly_telemetry w cfg s))).
Proof.
  intros fs w cfg tok s J H.
  pose proof (truthy_static_token tok H) as T.
  split; [|split].
  - rewrite (get_telemetry_static_events fs w cfg tok s J H).
    apply fetch_telemetry_login_only_on_401. exact T.
  - rewrite (get_weekly_telemetry_static_events w cfg tok s J H).
    apply (fetch_telemetry_login_only_on_401 w cfg (VStr tok) (Some series_keys)
             _ _ _ _ (tick s) T).
  - rewrite (get_monthly_telemetry_static_events w cfg tok s J H).
    apply (fetch_telemetry_login_only_on_401 w cfg (VStr tok) (Some series_keys)
             _ _ _ _ (tick s) T).
Qed.

Lemma static_token_login_only_on_401_witness :
  let evs := since initial
               (snd (get_weekly_telemetry healthy_world sample_static_cfg initial)) in
  count_events is_authenticate evs = 0%nat /\ count_events is_login evs = 0%nat.
Proof.
  cbv zeta.
  refine (proj2 (proj2 (proj1 (proj2
            (static_token_login_only_on_401 FloatLiteral.float_of_str healthy_world
               sample_static_cfg "static" initial eq_refl _)))) _).
  - discriminate.
  - intros (_ & r & E & S401). injection E as <-. discriminate.
Defined.

(** C6 as stated fails: a static token is configured, the first GET is
    answered 401, and the handler logs in against the auth endpoint. *)
Lemma static_token_still_logs_in_after_401 :
  let w := expired_token_world
             (Responded {| status_code := 200; body := Some sample_series |}) in
  let query := build_params (Some snapshot_keys) None None None None in
  JWT_TOKEN sample_static_cfg = Some "static" /\
  since initial (snd (get_telemetry FloatLiteral.float_of_str w sample_static_cfg initial))
  = [ EvConnect true; EvGet (Some "dev-1") (VStr "static") query;
      EvAuthenticate; EvConnect true;
      EvLogin (Some "tenant@thingsboard.org") (Some "tenant");
      EvGet (Some "dev-1") (VStr "fresh") query ] /\
  count_events is_login
    (since initial
       (snd (get_telemetry FloatLiteral.float_of_str w sample_static_cfg initial)))
  = 1%nat.
Proof.
  cbv zeta. split; [reflexivity|]. split; vm_compute; reflexivity.
Qed.

(** ** Empty fetch results *)

(** C10.  In each of the three telemetry handlers, once a token was
    obtained, a fetch that yields an empty JSON object is answered exactly
    like a fetch that failed (result [None]): with status 500 and the error
    object of the handler, whose [online] field is false. *)
Theorem empty_fetch_is_fetch_failure :
  forall (fs : string -> option float64) (w : World) (cfg : Config)
         (s s1 : St) (token : value),
    obtain_token w cfg s = (Ok token, s1) ->
    truthy token = true ->
    let now := clock_ms w (n_clock s1) in
    (forall d s2,
        fetch_telemetry w cfg token (Some snapshot_keys) None None None None s1
        = (Ok d, s2) ->
        nothing_fetched d ->
        get_telemetry fs w cfg s
        = (Ok (500, VDict [("error", VStr "Could not fetch telemetry");
                           ("online", VBool false)]), s2)) /\
    (forall d s2,
        fetch_telemetry w cfg token (Some series_keys)
          (Some (now - 7 * 24 * 60 * 60 * 1000)) (Some now) (Some 3600000) (Some 168)
          (tick s1)
        = (Ok d, s2) ->
        nothing_fetched d ->
        get_weekly_telemetry w cfg s
        = (Ok (500, VDict [("error", VStr "Could not fetch weekly telemetry");
                           ("online", VBool false)]), s2)) /\
    (forall d s2,
        fetch_telemetry w cfg token (Some series_keys)
          (Some (now - 30 * 24 * 60 * 60 * 1000)) (Some now) (Some 86400000) (Some 30)
          (tick s1)
        = (Ok d, s2) ->
        nothing_fetched d ->
        get_monthly_telemetry w cfg s
        = (Ok (500, VDict [("error", VStr "Could not fetch monthly telemetry");
                           ("online", VBool false)]), s2)).
Proof.
  intros fs w cfg s s1 token Htok T. cbv zeta.
  split; [|split]; intros d s2 Hfetch Hd.
  - unfold get_telemetry. unfold bind at 1. rewrite Htok, T. cbn [negb].
    unfold bind at 1. rewrite Hfetch.
    destruct Hd as [-> | ->]; reflexivity.
  - unfold get_weekly_telemetry. unfold bind at 1. rewrite Htok, T. cbn [negb].
    unfold bind at 1. rewrite get_time_range_run.
    unfold bind at 1. rewrite Hfetch.
    destruct Hd as [-> | ->]; reflexivity.
  - unfold get_monthly_telemetry. unfold bind at 1. rewrite Htok, T. cbn [negb].
    unfold bind at 1. rewrite get_time_range_run.
    unfold bind at 1. rewrite Hfetch.
    destruct Hd as [-> | ->]; reflexivity.
Qed.

Lemma empty_fetch_is_fetch_failure_witness :
  fst (fetch_telemetry empty_body_world sample_static_cfg (VStr "static")
         (Some snapshot_keys) None None None None initial)
  = Ok (VDict []) /\
  fst (get_telemetry FloatLiteral.float_of_str empty_body_world sample_static_cfg initial)
  = Ok (500, VDict [("error", VStr "Could not fetch telemetry"); ("online", VBool false)]).
Proof.
  split; [reflexivity|].
  rewrite (proj1 (empty_fetch_is_fetch_failure FloatLiteral.float_of_str
                    empty_body_world sample_static_cfg initial initial (VStr "static")
                    eq_refl eq_refl)
             (VDict []) _ eq_refl (or_intror eq_refl)).
  reflexivity.
Defined.

(** ** Queries of the series handlers *)

Lemma not_get_login_or_sleep evs :
  forallb login_or_sleep evs = true ->
  forall device token q, ~ In (EvGet device token q) evs.
Proof.
  intros H device token q Hin.
  rewrite forallb_forall in H. specialize (H _ Hin). discriminate.
Qed.

(** Every GET of the fetcher carries the query built from its arguments. *)
Lemma fetch_telemetry_queries w cfg token ks start_ts end_ts interval limit s :
  exists evs,
    trace (snd (fetch_telemetry w cfg token ks start_ts end_ts interval limit s))
    = trace s ++ evs /\
    gets_use cfg (build_params ks start_ts end_ts interval limit) evs.
Proof.
  set (query := build_params ks start_ts end_ts interval limit).
  destruct (truthy token) eqn:T.
  2:{ exists []. unfold fetch_telemetry. rewrite T. cbn. rewrite app_nil_r.
      split; [reflexivity|]. intros device tok q []. }
  destruct (connect w (n_connect s)) eqn:C.
  2:{ rewrite (fetch_telemetry_offline w cfg token ks start_ts end_ts interval limit s T C).
      exists [EvConnect false]. split; [reflexivity|].
      intros device tok q [H|[]]. discriminate. }
  destruct (is_401_dec (telemetry_get w (n_get s))) as [(r0 & G & S401)|N].
  2:{ rewrite (fetch_telemetry_no_401 w cfg token ks start_ts end_ts interval limit s T C N).
      exists [EvConnect true; EvGet (DEVICE_ID cfg) token query].
      split; [trace_normal; reflexivity|].
      intros device tok q [H|[H|[]]]; [discriminate|].
      injection H as <- _ <-. split; reflexivity. }
  rewrite (fetch_telemetry_on_401 w cfg token ks start_ts end_ts interval limit s r0
             T C G S401).
  fold query. set (s0 := after_get cfg token query (after_connect true s)).
  destruct (get_auth_token_effects w cfg s0) as (evs & Ht & Hall & _).
  pose proof (not_get_login_or_sleep evs Hall) as Hnoget.
  assert (Hs0 : trace s0 = trace s ++ [EvConnect true; EvGet (DEVICE_ID cfg) token query]).
  { subst s0. trace_normal. reflexivity. }
  assert (Hfirst : forall last,
             gets_use cfg query last ->
             gets_use cfg query
               ([EvConnect true; EvGet (DEVICE_ID cfg) token query]
                  ++ (EvAuthenticate :: EvConnect (connect w (n_connect s0)) :: evs)
                  ++ last)).
  { intros last Hlast device tok q Hin.
    cbn [app] in Hin.
    destruct Hin as [H|[H|[H|[H|Hin]]]]; try discriminate.
    - injection H as <- _ <-. split; reflexivity.
    - apply in_app_or in Hin. destruct Hin as [Hin|Hin].
      + exfalso. exact (Hnoget _ _ _ Hin).
      + exact (Hlast _ _ _ Hin). }
  destruct (get_auth_token w cfg s0) as [[new_token|e] sa]; cbn [fst snd] in *.
  - destruct (truthy new_token).
    + eexists. split.
      * cbn [after_get trace snd]. rewrite Ht, Hs0.
        repeat rewrite <- app_assoc. reflexivity.
      * cbn [app]. apply (Hfirst [EvGet (DEVICE_ID cfg) new_token query]).
        intros device tok q [H|[]]. injection H as <- _ <-. split; reflexivity.
    + eexists. split.
      * cbn [snd]. rewrite Ht, Hs0. repeat rewrite <- app_assoc. reflexivity.
      * cbn [app]. specialize (Hfirst []). rewrite app_nil_r in Hfirst.
        apply Hfirst. intros device tok q [].
  - eexists. split.
    + cbn [snd]. rewrite Ht, Hs0. repeat rewrite <- app_assoc. reflexivity.
    + cbn [app]. specialize (Hfirst []). rewrite app_nil_r in Hfirst.
      apply Hfirst. intros device tok q [].
Qed.

(** Getting hold of the token reads no clock and issues no telemetry
    request. *)
Lemma obtain_token_effects w cfg s :
  exists evs,
    trace (snd (obtain_token w cfg s)) = trace s ++ evs /\
    (forall device token q, ~ In (EvGet device token q) evs) /\
    n_clock (snd (obtain_token w cfg s)) = n_clock s.
Proof.
  unfold obtain_token. destruct (truthy (opt_str (JWT_TOKEN cfg))).
  - exists []. cbn. rewrite app_nil_r. repeat split. intros device token q [].
  - destruct (get_auth_token_effects w cfg s) as (evs & Ht & Hall & _ & _ & _ & Hk & _).
    exists (EvAuthenticate :: EvConnect (connect w (n_connect s)) :: evs).
    repeat split; auto.
    intros device token q [H|[H|Hin]]; try discriminate.
    exact (not_get_login_or_sleep evs Hall _ _ _ Hin).
Qed.

Lemma get_weekly_telemetry_fetch w cfg s token s1 :
  obtain_token w cfg s = (Ok token, s1) ->
  truthy token = true ->
  trace (snd (get_weekly_telemetry w cfg s))
  = trace (snd (fetch_telemetry w cfg token (Some series_keys)
                  (Some (clock_ms w (n_clock s1) - 7 * 24 * 60 * 60 * 1000))
                  (Some (clock_ms w (n_clock s1))) (Some 3600000) (Some 168) (tick s1))).
Proof.
  intros Htok T. unfold get_weekly_telemetry. unfold bind at 1. rewrite Htok, T.
  cbn [negb]. unfold bind at 1. rewrite get_time_range_run.
  apply bind_silent_tail. intros d. silence.
Qed.

Lemma get_monthly_telemetry_fetch w cfg s token s1 :
  obtain_token w cfg s = (Ok token, s1) ->
  truthy token = true ->
  trace (snd (get_monthly_telemetry w cfg s))
  = trace (snd (fetch_telemetry w cfg token (Some series_keys)
                  (Some (clock_ms w (n_clock s1) - 30 * 24 * 60 * 60 * 1000))
                  (Some (clock_ms w (n_clock s1))) (Some 86400000) (Some 30) (tick s1))).
Proof.
  intros Htok T. unfold get_monthly_telemetry. unfold bind at 1. rewrite Htok, T.
  cbn [negb]. unfold bind at 1. rewrite get_time_range_run.
  apply bind_silent_tail. intros d. silence.
Qed.

Lemma get_weekly_telemetry_no_token w cfg s :
  (forall token, fst (obtain_token w cfg s) = Ok token -> truthy token = false) ->
  snd (get_weekly_telemetry w cfg s) = snd (obtain_token w cfg s).
Proof.
  intros H. unfold get_weekly_telemetry. unfold bind at 1.
  destruct (obtain_token w cfg s) as [[token|e] s1]; [|reflexivity].
  rewrite (H token eq_refl). reflexivity.
Qed.

Lemma get_monthly_telemetry_no_token w cfg s :
  (forall token, fst (obtain_token w cfg s) = Ok token -> truthy token = false) ->
  snd (get_monthly_telemetry w cfg s) = snd (obtain_token w cfg s).
Proof.
  intros H. unfold get_monthly_telemetry. unfold bind at 1.
  destruct (obtain_token w cfg s) as [[token|e] s1]; [|reflexivity].
  rewrite (H token eq_refl). reflexivity.
Qed.

Lemma gets_use_app cfg query evs1 evs2 :
  (forall device token q, ~ In (EvGet device token q) evs1) ->
  gets_use cfg query evs2 -> gets_use cfg query (evs1 ++ evs2).
Proof.
  intros H1 H2 device token q Hin. apply in_app_or in Hin.
  destruct Hin as [Hin|Hin]; [exfalso; exact (H1 _ _ _ Hin)|exact (H2 _ _ _ Hin)].
Qed.

(** The GETs of a handler that obtains its token and then calls the fetcher
    once are those of that call. *)
Lemma handler_gets_use w cfg query (handler : M http_response) s
  ks start_ts end_ts interval limit :
  query = build_params ks start_ts end_ts interval limit ->
  (forall token s1,
      obtain_token w cfg s = (Ok token, s1) -> truthy token = true ->
      trace (snd (handler s))
      = trace (snd (fetch_telemetry w cfg token ks start_ts end_ts interval limit
                      (tick s1)))) ->
  ((forall token, fst (obtain_token w cfg s) = Ok token -> truthy token = false) ->
   snd (handler s) = snd (obtain_token w cfg s)) ->
  gets_use cfg query (since s (snd (handler s))).
Proof.
  intros -> Hfetch Hnone.
  destruct (obtain_token_effects w cfg s) as (evs0 & Ht0 & Hnoget & _).
  destruct (obtain_token w cfg s) as [[token|e] s1] eqn:Eo; cbn [snd fst] in *.
  - destruct (truthy token) eqn:T.
    + specialize (Hfetch token s1 eq_refl T).
      destruct (fetch_telemetry_queries w cfg token ks start_ts end_ts interval limit
                  (tick s1)) as (evs1 & Ht1 & Huse).
      rewrite Ht1 in Hfetch. cbn [tick trace] in Hfetch. rewrite Ht0 in Hfetch.
      rewrite <- app_assoc in Hfetch. rewrite (since_app _ _ _ Hfetch).
      apply gets_use_app; assumption.
    + rewrite Hnone by (intros t [= <-]; exact T).
      rewrite (since_app _ _ _ Ht0). rewrite <- (app_nil_r evs0).
      apply gets_use_app; [assumption|]. intros device tok q [].
  - rewrite Hnone by (intros t [=]).
    rewrite (since_app _ _ _ Ht0). rewrite <- (app_nil_r evs0).
    apply gets_use_app; [assumption|]. intros device tok q [].
Qed.

Lemma series_query_window now window step count :
  step <> 0 -> count <> 0 ->
  queries_window (series_query now window step count) now window step count.
Proof.
  intros Hs Hc. unfold queries_window, series_query, build_params.
  cbn [keys interval limit endTs startTs given series_keys].
  split; [|repeat split].
  - eexists. split; [vm_compute; reflexivity|]. split.
    + intros k. split.
      * intros Hin. cbn [In] in Hin.
        repeat match type of Hin with
               | _ \/ _ => destruct Hin as [<-|Hin]
               end;
          try contradiction;
          first [ exists "power"; split; [cbn; tauto|vm_compute; tauto]
                | exists "voltage"; split; [cbn; tauto|vm_compute; tauto]
                | exists "current"; split; [cbn; tauto|vm_compute; tauto]
                | exists "frequency"; split; [cbn; tauto|vm_compute; tauto]
                | exists "rmp"; split; [cbn; tauto|vm_compute; tauto]
                | exists "energy"; split; [cbn; tauto|vm_compute; tauto] ].
      * intros (canonical & Hc' & Hk). cbn [In] in Hc'.
        repeat match type of Hc' with
               | _ \/ _ => destruct Hc' as [<-|Hc']
               end;
          try contradiction;
          vm_compute in Hk;
          repeat match type of Hk with
                 | _ \/ _ => destruct Hk as [<-|Hk]
                 end;
          try contradiction; cbn; tauto.
    + intros k Hk. vm_compute in Hk.
      repeat match type of Hk with
             | _ \/ _ => destruct Hk as [<-|Hk]
             end;
        try contradiction;
        cbn [In]; intros H;
        repeat match type of H with
               | _ \/ _ => destruct H as [H|H]
               end;
        try discriminate; contradiction.
  - destruct (step =? 0) eqn:E; [apply Z.eqb_eq in E; contradiction|reflexivity].
  - destruct (count =? 0) eqn:E; [apply Z.eqb_eq in E; contradiction|reflexivity].
  - intros H. destruct (now =? 0) eqn:E; [apply Z.eqb_eq in E; contradiction|reflexivity].
  - intros H. destruct (now - window =? 0) eqn:E;
      [apply Z.eqb_eq in E; contradiction|reflexivity].
Qed.

Lemma obtain_token_clock w cfg s token s1 :
  obtain_token w cfg s = (Ok token, s1) -> n_clock s1 = n_clock s.
Proof.
  intros H. destruct (obtain_token_effects w cfg s) as (evs & _ & _ & Hk).
  rewrite H in Hk. exact Hk.
Qed.

(** C8.  Once it holds a token, the weekly handler calls the fetcher with
    the six canonical keys, the start [now - 7*24*60*60*1000], the end [now],
    the interval 3600000 and the limit 168, where [now] is the clock reading
    of the request; the monthly handler does the same with 30 days, 86400000
    and 30.  Every GET either handler issues carries the query built from
    these arguments: the spellings of the six keys and none of the power
    factor, that interval and limit, and that window. *)
Theorem series_handlers_query :
  forall (w : World) (cfg : Config) (s : St),
    let now := clock_ms w (n_clock s) in
    let week := 7 * 24 * 60 * 60 * 1000 in
    let month := 30 * 24 * 60 * 60 * 1000 in
    (forall token s1,
        obtain_token w cfg s = (Ok token, s1) -> truthy token = true ->
        trace (snd (get_weekly_telemetry w cfg s))
        = trace (snd (fetch_telemetry w cfg token
                        (Some ["power"; "voltage"; "current"; "frequency"; "rmp"; "energy"])
                        (Some (now - week)) (Some now) (Some 3600000) (Some 168)
                        (tick s1))) /\
        trace (snd (get_monthly_telemetry w cfg s))
        = trace (snd (fetch_telemetry w cfg token
                        (Some ["power"; "voltage"; "current"; "frequency"; "rmp"; "energy"])
                        (Some (now - month)) (Some now) (Some 86400000) (Some 30)
                        (tick s1)))) /\
    gets_use cfg (series_query now week 3600000 168)
      (since s (snd (get_weekly_telemetry w cfg s))) /\
    gets_use cfg (series_query now month 86400000 30)
      (since s (snd (get_monthly_telemetry w cfg s))) /\
    queries_window (series_query now week 3600000 168) now week 3600000 168 /\
    queries_window (series_query now month 86400000 30) now month 86400000 30.
Proof.
  intros w cfg s. cbv zeta.
  assert (Hw : forall token s1,
             obtain_token w cfg s = (Ok token, s1) -> truthy token = true ->
             trace (snd (get_weekly_telemetry w cfg s))
             = trace (snd (fetch_telemetry w cfg token (Some series_keys)
                             (Some (clock_ms w (n_clock s) - 7 * 24 * 60 * 60 * 1000))
                             (Some (clock_ms w (n_clock s))) (Some 3600000) (Some 168)
                             (tick s1)))).
  { intros token s1 Ho T. rewrite (get_weekly_telemetry_fetch w cfg s token s1 Ho T).
    rewrite (obtain_token_clock w cfg s token s1 Ho). reflexivity. }
  assert (Hm : forall token s1,
             obtain_token w cfg s = (Ok token, s1) -> truthy token = true ->
             trace (snd (get_monthly_telemetry w cfg s))
             = trace (snd (fetch_telemetry w cfg token (Some series_keys)
                             (Some (clock_ms w (n_clock s) - 30 * 24 * 60 * 60 * 1000))
                             (Some (clock_ms w (n_clock s))) (Some 86400000) (Some 30)
                             (tick s1)))).
  { intros token s1 Ho T. rewrite (get_monthly_telemetry_fetch w cfg s token s1 Ho T).
    rewrite (obtain_token_clock w cfg s token s1 Ho). reflexivity. }
  split; [|split; [|split; [|split]]].
  - intros token s1 Ho T. split; [exact (Hw token s1 Ho T)|exact (Hm token s1 Ho T)].
  - apply (handler_gets_use w cfg _ (get_weekly_telemetry w cfg) s _ _ _ _ _ eq_refl Hw).
    apply get_weekly_telemetry_no_token.
  - apply (handler_gets_use w cfg _ (get_monthly_telemetry w cfg) s _ _ _ _ _ eq_refl Hm).
    apply get_monthly_telemetry_no_token.
  - apply series_query_window; discriminate.
  - apply series_query_window; discriminate.
Qed.

Lemma series_handlers_query_witness :
  since initial (snd (get_weekly_telemetry healthy_world sample_static_cfg initial))
  = [ EvConnect true;
      EvGet (Some "dev-1") (VStr "static")
        {| keys := Some [ "Power"; "power"; "POWER"; "Voltage"; "voltage"; "VOLTAGE";
                          "Current"; "current"; "CURRENT";
                          "Frequency"; "frequency"; "FREQUENCY";
                          "RMP"; "rmp"; "Rmp"; "Energy"; "energy"; "ENERGY" ];
           startTs := Some 1713395200000;
           endTs := Some 1714000000000;
           interval := Some 3600000;
           limit := Some 168 |} ].
Proof.
  unfold since.
  rewrite (proj1 (proj1 (series_handlers_query healthy_world sample_static_cfg initial)
                    (VStr "static") initial eq_refl eq_refl)).
  vm_compute. reflexivity.
Defined.

(** ** Series assembly *)

Lemma rmap_pointwise {A B : Type} (f : A -> result B) (g : A -> B) (l : list A) :
  (forall a, In a l -> f a = Ok (g a)) -> rmap f l = Ok (map g l).
Proof.
  induction l as [|a rest IH]; intros H; [reflexivity|].
  cbn [rmap map]. rewrite (H a) by (left; reflexivity). cbn [rbind].
  rewrite IH by (intros b Hb; apply H; right; exact Hb). reflexivity.
Qed.

Lemma telemetry_shape_get d name v :
  telemetry_shape d = true -> dict_get d name = Some v -> is_series v = true.
Proof.
  unfold telemetry_shape. induction d as [|[k x] rest IH]; intros Hs Hg; [discriminate|].
  cbn [forallb snd] in Hs. apply andb_prop in Hs. destruct Hs as [Hx Hrest].
  cbn [dict_get] in Hg. destruct (String.eqb k name).
  - injection Hg as <-. exact Hx.
  - apply IH; assumption.
Qed.

(** Each of the six series keys is one of its own spellings. *)
Lemma series_key_among_variants c :
  In c series_keys -> In c (mapping_get c [c]).
Proof.
  intros H. cbn [series_keys In] in H.
  repeat match type of H with
         | _ \/ _ => destruct H as [<-|H]
         end;
    try contradiction; vm_compute; tauto.
Qed.

Lemma series_key_canonical c :
  In c series_keys ->
  dict_get TELEMETRY_KEY_MAPPING c = Some (mapping_get c [c]).
Proof.
  intros H. cbn [series_keys In] in H.
  repeat match type of H with
         | _ \/ _ => destruct H as [<-|H]
         end;
    try contradiction; reflexivity.
Qed.

(** The actual key of a series key leads to the matched series, or is absent
    from the response when no spelling is present. *)
Lemma actual_key_series d c :
  In c series_keys ->
  telemetry_shape d = true ->
  exists k,
    actual_key (VDict d) c = Ok k /\
    ((dict_get d k = Some (VList (matched_series d c)) /\
      forallb is_sample (matched_series d c) = true) \/
     (dict_get d k = None /\ matched_series d c = [])).
Proof.
  intros Hc Hs. unfold actual_key, matched_series.
  rewrite find_matching_key_dict. cbn [rbind].
  destruct (find (dict_mem d) (mapping_get c [c])) as [name|] eqn:F.
  - pose proof (find_some _ _ F) as [Hin Hmem].
    exists name. split.
    { cbn [or_else].
      rewrite (variants_not_empty c _ (series_key_canonical c Hc) name Hin).
      reflexivity. }
    left. unfold dict_mem in Hmem.
    destruct (dict_get d name) as [v|] eqn:G; [|discriminate].
    pose proof (telemetry_shape_get d name v Hs G) as Hv.
    destruct v; try discriminate. split; [reflexivity|exact Hv].
  - exists c. split; [reflexivity|]. right. split; [|reflexivity].
    pose proof (find_none _ _ F c (series_key_among_variants c Hc)) as Hmem.
    unfold dict_mem in Hmem. destruct (dict_get d c); [discriminate|reflexivity].
Qed.

Lemma is_sample_item e field :
  is_sample e = true -> field = "ts" \/ field = "value" ->
  py_item e field = Ok (sample_field e field).
Proof.
  intros He Hf. destruct e; try discriminate. cbn [is_sample] in He.
  apply andb_prop in He. destruct He as [Hts Hval]. unfold dict_mem in Hts, Hval.
  cbn [py_item sample_field].
  destruct Hf as [-> | ->].
  - destruct (dict_get d "ts"); [reflexivity|discriminate].
  - destruct (dict_get d "value"); [reflexivity|discriminate].
Qed.

Lemma series_field_sample d k entries i field :
  dict_get d k = Some (VList entries) ->
  forallb is_sample entries = true ->
  (i < List.length entries)%nat ->
  field = "ts" \/ field = "value" ->
  series_field (VDict d) k i field = Ok (sample_field (nth i entries VNone) field).
Proof.
  intros Hg Hall Hi Hf. unfold series_field. cbn [py_item]. rewrite Hg. cbn [rbind py_index].
  destruct (nth_error entries i) as [e|] eqn:N.
  - cbn [rbind]. rewrite (nth_error_nth _ _ VNone N).
    apply is_sample_item; [|exact Hf].
    rewrite forallb_forall in Hall. apply Hall. exact (nth_error_In _ _ N).
  - apply nth_error_None in N. lia.
Qed.

Lemma companion_value_padded d k series i :
  (dict_get d k = Some (VList series) /\ forallb is_sample series = true) \/
  (dict_get d k = None /\ series = []) ->
  companion_value (VDict d) k i = Ok (padded series i).
Proof.
  intros [[Hg Hall] | [Hg ->]]; unfold companion_value, padded; cbn [py_get];
    rewrite Hg; cbn [rbind py_len].
  - destruct (i <? List.length series)%nat eqn:L.
    + apply Nat.ltb_lt in L.
      rewrite (series_field_sample d k series i "value" Hg Hall L (or_intror eq_refl)).
      destruct (nth_error series i) as [e|] eqn:N.
      * rewrite (nth_error_nth _ _ VNone N). reflexivity.
      * apply nth_error_None in N. lia.
    + apply Nat.ltb_ge in L. apply nth_error_None in L. rewrite L. reflexivity.
  - cbn. destruct i; reflexivity.
Qed.

(** The loop of the series handlers on a response of the documented shape. *)
Lemma series_points_shape d :
  telemetry_shape d = true ->
  series_points (VDict d)
  = Ok (map (expected_point d) (seq 0 (List.length (matched_series d "power")))).
Proof.
  intros Hs.
  destruct (actual_key_series d "power" (or_introl eq_refl) Hs) as (kp & Ep & Hp).
  destruct (actual_key_series d "voltage" (or_intror (or_introl eq_refl)) Hs)
    as (kv & Ev & Hv).
  destruct (actual_key_series d "current"
              (or_intror (or_intror (or_introl eq_refl))) Hs) as (kc & Ec & Hc).
  destruct (actual_key_series d "frequency"
              (or_intror (or_intror (or_intror (or_introl eq_refl)))) Hs)
    as (kf & Ef & Hf).
  destruct (actual_key_series d "rmp"
              (or_intror (or_intror (or_intror (or_intror (or_introl eq_refl))))) Hs)
    as (kr & Er & Hr).
  destruct (actual_key_series d "energy"
              (or_intror (or_intror (or_intror (or_intror (or_intror
                 (or_introl eq_refl)))))) Hs) as (ke & Ee & He).
  unfold series_points, resolve_actual_keys.
  rewrite Ep, Ev, Ec, Ef, Er, Ee. cbn [rbind actual_power_key].
  assert (Hlen : (let? series := py_get (VDict d) kp (VList []) in py_len series)
                 = Ok (List.length (matched_series d "power"))).
  { cbn [py_get]. destruct Hp as [[Hg _] | [Hg ->]]; rewrite Hg; reflexivity. }
  destruct (py_get (VDict d) kp (VList [])) as [series|e]; [|discriminate].
  cbn [rbind] in *. rewrite Hlen. cbn [rbind].
  apply rmap_pointwise. intros i Hi. apply in_seq in Hi.
  unfold series_point, expected_point.
  cbn [actual_power_key actual_voltage_key actual_current_key actual_frequency_key
       actual_rmp_key actual_energy_key].
  destruct Hp as [[Hg Hall] | [Hg E]]; [|rewrite E in Hi; cbn in Hi; lia].
  rewrite (series_field_sample d kp _ i "ts" Hg Hall) by (tauto || lia).
  rewrite (series_field_sample d kp _ i "value" Hg Hall) by (tauto || lia).
  rewrite (companion_value_padded d kv _ i Hv), (companion_value_padded d kc _ i Hc),
    (companion_value_padded d kf _ i Hf), (companion_value_padded d kr _ i Hr),
    (companion_value_padded d ke _ i He).
  reflexivity.
Qed.

(** C2.  For a fetch result of the documented shape (a mapping from key
    names to lists of records with [ts] and [value]), the loop of the weekly
    and monthly handlers returns exactly one record per point of the matched
    power series; record [i] takes its timestamp and its power from the power
    series at index [i], and for voltage, current, frequency, rmp and energy
    the value of the matched series at index [i] if that series has more than
    [i] points, 0 otherwise.  That list is the [data] of the 200 response of
    either handler. *)
Theorem series_length_and_padding :
  forall (d : dict value),
    telemetry_shape d = true ->
    exists points,
      series_points (VDict d) = Ok points /\
      List.length points = List.length (matched_series d "power") /\
      (forall i, (i < List.length points)%nat ->
                 nth_error points i = Some (expected_point d i)) /\
      (forall (w : World) (cfg : Config) (s s1 s2 : St) (token : value),
          d <> [] ->
          obtain_token w cfg s = (Ok token, s1) ->
          truthy token = true ->
          let now := clock_ms w (n_clock s1) in
          let week := 7 * 24 * 60 * 60 * 1000 in
          let month := 30 * 24 * 60 * 60 * 1000 in
          (fetch_telemetry w cfg token (Some series_keys)
             (Some (now - week)) (Some now) (Some 3600000) (Some 168) (tick s1)
           = (Ok (VDict d), s2) ->
           get_weekly_telemetry w cfg s
           = (Ok (200, VDict [ ("data", VList points);
                               ("start_date", VStr (local_date w (now - week)));
                               ("end_date", VStr (local_date w now));
                               ("interval", VStr "hourly");
                               ("online", VBool true) ]), s2)) /\
          (fetch_telemetry w cfg token (Some series_keys)
             (Some (now - month)) (Some now) (Some 86400000) (Some 30) (tick s1)
           = (Ok (VDict d), s2) ->
           get_monthly_telemetry w cfg s
           = (Ok (200, VDict [ ("data", VList points);
                               ("start_date", VStr (local_date w (now - month)));
                               ("end_date", VStr (local_date w now));
                               ("interval", VStr "daily");
                               ("online", VBool true) ]), s2))).
Proof.
  intros d Hs. pose proof (series_points_shape d Hs) as Hp.
  exists (map (expected_point d) (seq 0 (List.length (matched_series d "power")))).
  split; [exact Hp|]. split; [rewrite length_map, length_seq; reflexivity|]. split.
  - intros i Hi. rewrite length_map, length_seq in Hi.
    rewrite nth_error_map, nth_error_seq.
    apply Nat.ltb_lt in Hi. rewrite Hi. reflexivity.
  - intros w cfg s s1 s2 token Hd Htok T. cbv zeta.
    assert (Ht : truthy (VDict d) = true) by (destruct d; [contradiction|reflexivity]).
    split; intros Hfetch.
    + unfold get_weekly_telemetry. unfold bind at 1. rewrite Htok, T. cbn [negb].
      unfold bind at 1. rewrite get_time_range_run.
      unfold bind at 1. rewrite Hfetch, Ht. cbn [negb].
      unfold bind, lift. rewrite Hp. reflexivity.
    + unfold get_monthly_telemetry. unfold bind at 1. rewrite Htok, T. cbn [negb].
      unfold bind at 1. rewrite get_time_range_run.
      unfold bind at 1. rewrite Hfetch, Ht. cbn [negb].
      unfold bind, lift. rewrite Hp. reflexivity.
Qed.

(** Two power points and one voltage point: two records, the second with
    voltage 0. *)
Lemma series_length_and_padding_witness :
  telemetry_shape
    [ ("Power", VList [ VDict [("ts", VInt 1714000000000); ("value", VStr "231.5")];
                        VDict [("ts", VInt 1713996400000); ("value", VStr "228.0")] ]);
      ("voltage", VList [ VDict [("ts", VInt 1714000000000); ("value", VStr "229.9")] ]) ]
  = true /\
  exists points,
    series_points sample_series = Ok points /\
    List.length points = 2%nat /\
    nth_error points 1
    = Some (VDict [ ("timestamp", VInt 1713996400000); ("power", VStr "228.0");
                    ("voltage", VInt 0); ("current", VInt 0); ("frequency", VInt 0);
                    ("rmp", VInt 0); ("energy", VInt 0) ]).
Proof.
  split; [reflexivity|].
  destruct (series_length_and_padding
              [ ("Power", VList [ VDict [("ts", VInt 1714000000000); ("value", VStr "231.5")];
                                  VDict [("ts", VInt 1713996400000); ("value", VStr "228.0")] ]);
                ("voltage", VList [ VDict [("ts", VInt 1714000000000);
                                           ("value", VStr "229.9")] ]) ]
              eq_refl) as (points & Hp & Hlen & Hnth & _).
  exists points. split; [exact Hp|]. split; [exact Hlen|].
  apply Hnth. rewrite Hlen. cbn. lia.
Defined.

(** * Further properties of the code *)

(** ** Authenticator: offline, back-off and malformed login bodies *)

(** X1.  When the probe fails, [get_auth_token] returns [None] at once: the
    login endpoint is not contacted and nothing is slept. *)
Theorem get_auth_token_offline :
  forall (w : World) (cfg : Config) (s : St),
    connect w (n_connect s) = false ->
    let run := get_auth_token w cfg s in
    fst run = Ok VNone /\
    since s (snd run) = [EvAuthenticate; EvConnect false] /\
    n_post (snd run) = n_post s.
Proof.
  intros w cfg s C. cbv zeta.
  unfold get_auth_token, bind, check_internet_connection, socket_create_connection.
  cbn [emit n_connect]. rewrite C. cbn [negb ret fst snd n_post].
  repeat split. apply since_app. trace_normal. reflexivity.
Qed.

Lemma get_auth_token_offline_witness :
  let w := {| connect := fun _ => false;
              login_post := fun _ => login_ok;
              telemetry_get := fun _ => Failed;
              clock_ms := fun _ => 1714000000000;
              local_now := fun _ => "2024-04-25 01:06:40";
              local_date := fun _ => "2024-04-25" |} in
  fst (get_auth_token w sample_cfg initial) = Ok VNone /\
  since initial (snd (get_auth_token w sample_cfg initial))
  = [EvAuthenticate; EvConnect false] /\
  n_post (snd (get_auth_token w sample_cfg initial)) = 0%nat.
Proof.
  cbv zeta.
  apply (get_auth_token_offline
           {| connect := fun _ => false;
              login_post := fun _ => login_ok;
              telemetry_get := fun _ => Failed;
              clock_ms := fun _ => 1714000000000;
              local_now := fun _ => "2024-04-25 01:06:40";
              local_date := fun _ => "2024-04-25" |} sample_cfg initial).
  reflexivity.
Defined.

Lemma sleep_seconds_app evs1 evs2 :
  sleep_seconds (evs1 ++ evs2) = sleep_seconds evs1 + sleep_seconds evs2.
Proof.
  induction evs1 as [|e rest IH]; [reflexivity|].
  destruct e; cbn [app sleep_seconds]; rewrite IH; lia.
Qed.

Lemma backoff_budget_nonneg attempts : 0 <= backoff_budget attempts.
Proof.
  induction attempts as [|a rest IH]; cbn [backoff_budget]; [lia|].
  destruct (a <? 2); [|lia].
  assert (0 <= 2 ^ a) by (apply Z.pow_nonneg; lia). lia.
Qed.

(** The sleeps of the loop stay within the budget of its attempts, and there
    is at most one sleep per login. *)
Lemma login_loop_sleeps w cfg attempts :
  forall s,
    exists evs,
      trace (snd (login_loop w cfg attempts s)) = trace s ++ evs /\
      0 <= sleep_seconds evs <= backoff_budget attempts /\
      (count_events is_sleep evs <= count_events is_login evs)%nat.
Proof.
  induction attempts as [|attempt rest IH]; intros s.
  - exists []. cbn. rewrite app_nil_r. repeat split; lia.
  - cbn [login_loop backoff_budget].
    pose proof (login_attempt_state w cfg s) as Hs.
    pose proof (backoff_budget_nonneg rest) as Hb.
    assert (Hp : 0 <= (if attempt <? 2 then 2 ^ attempt else 0)).
    { destruct (attempt <? 2); [apply Z.pow_nonneg|]; lia. }
    destruct (login_attempt w cfg s) as [r s1]. cbn [snd] in Hs. subst s1.
    assert (Hstop : forall r' : result value,
               exists evs,
                 trace (snd (r', after_post cfg s)) = trace s ++ evs /\
                 0 <= sleep_seconds evs
                 <= (if attempt <? 2 then 2 ^ attempt else 0) + backoff_budget rest /\
                 (count_events is_sleep evs <= count_events is_login evs)%nat).
    { intros r'. exists [EvLogin (USERNAME cfg) (PASSWORD cfg)].
      cbn. repeat split; lia. }
    destruct r as [v|e]; [apply Hstop|].
    destruct e; try apply Hstop.
    unfold bind. destruct (attempt <? 2).
    + cbn [time_sleep].
      destruct (IH (emit (EvSleep (2 ^ attempt)) (after_post cfg s)))
        as (evs & Ht & Hsec & Hcnt).
      exists (EvLogin (USERNAME cfg) (PASSWORD cfg) :: EvSleep (2 ^ attempt) :: evs).
      rewrite Ht. trace_normal. split; [reflexivity|].
      cbn [sleep_seconds]. split; [lia|].
      change (count_events is_sleep
                (EvLogin (USERNAME cfg) (PASSWORD cfg) :: EvSleep (2 ^ attempt) :: evs))
        with (S (count_events is_sleep evs)).
      change (count_events is_login
                (EvLogin (USERNAME cfg) (PASSWORD cfg) :: EvSleep (2 ^ attempt) :: evs))
        with (S (count_events is_login evs)).
      lia.
    + cbn [ret].
      destruct (IH (after_post cfg s)) as (evs & Ht & Hsec & Hcnt).
      exists (EvLogin (USERNAME cfg) (PASSWORD cfg) :: evs).
      rewrite Ht. trace_normal. split; [reflexivity|].
      cbn [sleep_seconds]. split; [lia|].
      change (count_events is_sleep (EvLogin (USERNAME cfg) (PASSWORD cfg) :: evs))
        with (count_events is_sleep evs).
      change (count_events is_login (EvLogin (USERNAME cfg) (PASSWORD cfg) :: evs))
        with (S (count_events is_login evs)).
      lia.
Qed.

Lemma get_auth_token_budget w cfg s :
  exists evs,
    trace (snd (get_auth_token w cfg s)) = trace s ++ evs /\
    within_login_budget evs /\
    n_get (snd (get_auth_token w cfg s)) = n_get s /\
    fst (get_auth_token w cfg s) <> Raise RequestException.
Proof.
  destruct (get_auth_token_effects w cfg s)
    as (evs & Ht & Hall & Hc & Hoff & Hg & _ & _ & Hr).
  exists (EvAuthenticate :: EvConnect (connect w (n_connect s)) :: evs).
  split; [exact Ht|]. split; [|split; [exact Hg|exact Hr]].
  pose proof (count_login_or_sleep is_get evs login_or_sleep_not_get Hall) as Hget.
  pose proof (count_login_or_sleep is_authenticate evs
                login_or_sleep_not_authenticate Hall) as Hauth.
  set (c := connect w (n_connect s)) in *.
  unfold within_login_budget.
  change (count_events is_login (EvAuthenticate :: EvConnect c :: evs))
    with (count_events is_login evs).
  change (count_events is_sleep (EvAuthenticate :: EvConnect c :: evs))
    with (count_events is_sleep evs).
  change (sleep_seconds (EvAuthenticate :: EvConnect c :: evs))
    with (sleep_seconds evs).
  change (count_events is_get (EvAuthenticate :: EvConnect c :: evs))
    with (count_events is_get evs).
  change (count_events is_authenticate (EvAuthenticate :: EvConnect c :: evs))
    with (S (count_events is_authenticate evs)).
  rewrite Hget, Hauth.
  assert (Hsleep : (count_events is_sleep evs <= count_events is_login evs)%nat /\
                   0 <= sleep_seconds evs <= 3).
  { destruct c eqn:C; subst c.
    - rewrite (get_auth_token_online w cfg s C) in Ht.
      destruct (login_loop_sleeps w cfg [0; 1; 2]
                  (after_connect true (emit EvAuthenticate s)))
        as (evs' & Ht' & Hsec & Hcnt).
      rewrite Ht' in Ht. revert Ht. trace_normal. intros Ht.
      apply app_inv_head in Ht. injection Ht as <-.
      split; [exact Hcnt|]. change (backoff_budget [0; 1; 2]) with 3 in Hsec. exact Hsec.
    - rewrite (Hoff eq_refl). cbn. split; lia. }
  destruct Hsleep as [H1 H2]. repeat split; auto; lia.
Qed.

(** X2.  Whatever the network does, one call of [get_auth_token] posts at
    most three logins, sleeps at most as often as it logs in and for at most
    3 seconds in total, issues no telemetry request, and lets no
    [RequestException] out. *)
Theorem get_auth_token_bounded :
  forall (w : World) (cfg : Config) (s : St),
    let run := get_auth_token w cfg s in
    let evs := since s (snd run) in
    (count_events is_login evs <= 3)%nat /\
    (count_events is_sleep evs <= count_events is_login evs)%nat /\
    0 <= sleep_seconds evs <= 3 /\
    count_events is_get evs = 0%nat /\
    count_events is_authenticate evs = 1%nat /\
    fst run <> Raise RequestException.
Proof.
  intros w cfg s. cbv zeta.
  destruct (get_auth_token_budget w cfg s) as (evs & Ht & Hb & _ & Hr).
  rewrite (since_app _ _ _ Ht). destruct Hb as (H1 & H2 & H3 & H4 & H5).
  repeat split; auto; lia.
Qed.

(** X3.  A login answered under a status that is no error with a JSON body
    that is not an object makes [get_auth_token] raise [AttributeError] on
    the [.get]; the [except] clause does not catch it and no further attempt
    is made. *)
Theorem get_auth_token_body_not_object :
  forall (w : World) (cfg : Config) (s : St) (r : response) (v : value),
    connect w (n_connect s) = true ->
    login_post w (n_post s) = Responded r ->
    ~ (400 <= status_code r < 600) ->
    body r = Some v ->
    is_dict v = false ->
    let run := get_auth_token w cfg s in
    fst run = Raise AttributeError /\
    since s (snd run)
    = [EvAuthenticate; EvConnect true; EvLogin (USERNAME cfg) (PASSWORD cfg)].
Proof.
  intros w cfg s r v C L Hs Hb Hv. cbv zeta.
  rewrite (get_auth_token_online w cfg s C). cbn [login_loop].
  assert (E : login_attempt w cfg (after_connect true (emit EvAuthenticate s))
              = (Raise AttributeError,
                 after_post cfg (after_connect true (emit EvAuthenticate s)))).
  { unfold login_attempt, bind, http_post. cbn [after_connect emit n_post].
    rewrite L.
    destruct (status_code r =? 401) eqn:A.
    - apply Z.eqb_eq in A. exfalso. apply Hs. lia.
    - unfold lift, raise_for_status, response_json.
      rewrite (status_error_false _ Hs), Hb.
      destruct v; try discriminate; reflexivity. }
  rewrite E. split; [reflexivity|].
  apply since_app. trace_normal. reflexivity.
Qed.

Lemma get_auth_token_body_not_object_witness :
  let w := {| connect := fun _ => true;
              login_post := fun _ =>
                Responded {| status_code := 200;
                             body := Some (VList [VStr "maintenance"]) |};
              telemetry_get := fun _ => Failed;
              clock_ms := fun _ => 1714000000000;
              local_now := fun _ => "2024-04-25 01:06:40";
              local_date := fun _ => "2024-04-25" |} in
  fst (get_auth_token w sample_cfg initial) = Raise AttributeError /\
  since initial (snd (get_auth_token w sample_cfg initial))
  = [EvAuthenticate; EvConnect true;
     EvLogin (Some "tenant@thingsboard.org") (Some "tenant")].
Proof.
  cbv zeta.
  apply (get_auth_token_body_not_object
           {| connect := fun _ => true;
              login_post := fun _ =>
                Responded {| status_code := 200;
                             body := Some (VList [VStr "maintenance"]) |};
              telemetry_get := fun _ => Failed;
              clock_ms := fun _ => 1714000000000;
              local_now := fun _ => "2024-04-25 01:06:40";
              local_date := fun _ => "2024-04-25" |}
           sample_cfg initial
           {| status_code := 200; body := Some (VList [VStr "maintenance"]) |}
           (VList [VStr "maintenance"]) eq_refl eq_refl).
  - cbn. lia.
  - reflexivity.
  - reflexivity.
Defined.

(** ** Fetcher: the plain path and what can escape *)





(** The budget of one call of the fetcher, whatever the network does. *)
Lemma fetch_telemetry_budget w cfg token ks start_ts end_ts interval limit s :
  exists evs,
    trace (snd (fetch_telemetry w cfg token ks start_ts end_ts interval limit s))
    = trace s ++ evs /\
    within_fetch_budget evs.
Proof.
  set (query := build_params ks start_ts end_ts interval limit).
  unfold within_fetch_budget.
  destruct (truthy token) eqn:T.
  2:{ exists []. unfold fetch_telemetry. rewrite T. cbn. rewrite app_nil_r.
      repeat split; lia. }
  destruct (connect w (n_connect s)) eqn:C.
  2:{ rewrite (fetch_telemetry_offline w cfg token ks start_ts end_ts interval limit s T C).
      exists [EvConnect false]. split; [reflexivity|]. cbn. repeat split; lia. }
  destruct (is_401_dec (telemetry_get w (n_get s))) as [(r0 & G & S401)|N].
  2:{ rewrite (fetch_telemetry_no_401 w cfg token ks start_ts end_ts interval limit s T C N).
      exists [EvConnect true; EvGet (DEVICE_ID cfg) token query].
      split; [trace_normal; reflexivity|]. cbn. repeat split; lia. }
  rewrite (fetch_telemetry_on_401 w cfg token ks start_ts end_ts interval limit s r0
             T C G S401).
  fold query. set (s0 := after_get cfg token query (after_connect true s)).
  destruct (get_auth_token_budget w cfg s0) as (evs & Ht & Hb & _ & _).
  destruct Hb as (Hl & _ & Hsec & Hg & Ha).
  assert (Hs0 : trace s0 = trace s ++ [EvConnect true; EvGet (DEVICE_ID cfg) token query]).
  { subst s0. trace_normal. reflexivity. }
  assert (Hfirst : forall last,
             (count_events is_get last <= 1)%nat ->
             count_events is_authenticate last = 0%nat ->
             count_events is_login last = 0%nat ->
             sleep_seconds last = 0 ->
             (count_events is_get
                ([EvConnect true; EvGet (DEVICE_ID cfg) token query] ++ evs ++ last)
              <= 2)%nat /\
             (count_events is_authenticate
                ([EvConnect true; EvGet (DEVICE_ID cfg) token query] ++ evs ++ last)
              <= 1)%nat /\
             (count_events is_login
                ([EvConnect true; EvGet (DEVICE_ID cfg) token query] ++ evs ++ last)
              <= 3)%nat /\
             0 <= sleep_seconds
                    ([EvConnect true; EvGet (DEVICE_ID cfg) token query] ++ evs ++ last)
             <= 3).
  { intros last H1 H2 H3 H4.
    rewrite !count_events_app, !sleep_seconds_app, Hg, Ha, H2, H3, H4.
    cbn. repeat split; lia. }
  destruct (get_auth_token w cfg s0) as [[new_token|e] sa]; cbn [fst snd] in *.
  - destruct (truthy new_token).
    + exists ([EvConnect true; EvGet (DEVICE_ID cfg) token query] ++ evs
                ++ [EvGet (DEVICE_ID cfg) new_token query]).
      split.
      * cbn [after_get trace snd]. rewrite Ht, Hs0.
        repeat rewrite <- app_assoc. reflexivity.
      * apply Hfirst; cbn; lia.
    + exists ([EvConnect true; EvGet (DEVICE_ID cfg) token query] ++ evs ++ []).
      split.
      * cbn [snd]. rewrite Ht, Hs0, app_nil_r. repeat rewrite <- app_assoc. reflexivity.
      * apply Hfirst; cbn; lia.
  - exists ([EvConnect true; EvGet (DEVICE_ID cfg) token query] ++ evs ++ []).
    split.
    + cbn [snd]. rewrite Ht, Hs0, app_nil_r. repeat rewrite <- app_assoc. reflexivity.
    + apply Hfirst; cbn; lia.
Qed.

(** ** Handlers: no token, and the budget of a request *)

Lemma obtain_token_budget w cfg s :
  exists evs,
    trace (snd (obtain_token w cfg s)) = trace s ++ evs /\
    count_events is_get evs = 0%nat /\
    (count_events is_authenticate evs <= 1)%nat /\
    (count_events is_login evs <= 3)%nat /\
    0 <= sleep_seconds evs <= 3 /\
    n_get (snd (obtain_token w cfg s)) = n_get s.
Proof.
  unfold obtain_token. destruct (truthy (opt_str (JWT_TOKEN cfg))).
  - exists []. cbn. rewrite app_nil_r. repeat split; lia.
  - destruct (get_auth_token_budget w cfg s) as (evs & Ht & Hb & Hg & _).
    destruct Hb as (H1 & _ & H3 & H4 & H5).
    exists evs. repeat split; auto; lia.
Qed.

Lemma get_telemetry_fetch fs w cfg s token s1 :
  obtain_token w cfg s = (Ok token, s1) ->
  truthy token = true ->
  trace (snd (get_telemetry fs w cfg s))
  = trace (snd (fetch_telemetry w cfg token (Some snapshot_keys)
                  None None None None s1)).
Proof.
  intros Htok T. unfold get_telemetry. unfold bind at 1. rewrite Htok, T.
  cbn [negb]. apply bind_silent_tail. intros d. silence.
  apply silent_process_telemetry_data.
Qed.

Lemma get_telemetry_no_token fs w cfg s :
  (forall token, fst (obtain_token w cfg s) = Ok token -> truthy token = false) ->
  snd (get_telemetry fs w cfg s) = snd (obtain_token w cfg s).
Proof.
  intros H. unfold get_telemetry. unfold bind at 1.
  destruct (obtain_token w cfg s) as [[token|e] s1]; [|reflexivity].
  rewrite (H token eq_refl). reflexivity.
Qed.

(** X6.  When no token can be obtained (none is configured and the
    authenticator returns [None] or a token that is false), each of the three
    telemetry handlers answers 401 with the error ["Authentication failed"]
    and [online] false, and no telemetry request has been issued. *)
Theorem no_token_gives_401 :
  forall (fs : string -> option float64) (w : World) (cfg : Config)
         (s s1 : St) (token : value),
    obtain_token w cfg s = (Ok token, s1) ->
    truthy token = false ->
    let unauthenticated :=
      (Ok (401, VDict [("error", VStr "Authentication failed"); ("online", VBool false)]),
       s1) in
    get_telemetry fs w cfg s = unauthenticated /\
    get_weekly_telemetry w cfg s = unauthenticated /\
    get_monthly_telemetry w cfg s = unauthenticated /\
    count_events is_get (since s s1) = 0%nat /\
    n_get s1 = n_get s.
Proof.
  intros fs w cfg s s1 token Htok T. cbv zeta.
  destruct (obtain_token_budget w cfg s) as (evs & Ht & Hg & _ & _ & _ & Hn).
  rewrite Htok in Ht, Hn. cbn [snd] in Ht, Hn.
  split; [|split; [|split; [|split]]].
  - unfold get_telemetry. unfold bind at 1. rewrite Htok, T. reflexivity.
  - unfold get_weekly_telemetry. unfold bind at 1. rewrite Htok, T. reflexivity.
  - unfold get_monthly_telemetry. unfold bind at 1. rewrite Htok, T. reflexivity.
  - rewrite (since_app _ _ _ Ht). exact Hg.
  - exact Hn.
Qed.

(** Bad credentials, no static token: the login is answered 401. *)
Lemma no_token_gives_401_witness :
  let w := {| connect := fun _ => true;
              login_post := fun _ => unauthorized;
              telemetry_get := fun _ =>
                Responded {| status_code := 200; body := Some sample_series |};
              clock_ms := fun _ => 1714000000000;
              local_now := fun _ => "2024-04-25 01:06:40";
              local_date := fun _ => "2024-04-25" |} in
  fst (get_weekly_telemetry w sample_cfg initial)
  = Ok (401, VDict [("error", VStr "Authentication failed"); ("online", VBool false)]) /\
  n_get (snd (get_weekly_telemetry w sample_cfg initial)) = 0%nat.
Proof.
  cbv zeta.
  pose proof (no_token_gives_401 FloatLiteral.float_of_str
           {| connect := fun _ => true;
              login_post := fun _ => unauthorized;
              telemetry_get := fun _ =>
                Responded {| status_code := 200; body := Some sample_series |};
              clock_ms := fun _ => 1714000000000;
              local_now := fun _ => "2024-04-25 01:06:40";
              local_date := fun _ => "2024-04-25" |}
           sample_cfg initial _ VNone eq_refl eq_refl) as (_ & Hw & _ & _ & Hn).
  rewrite Hw. split; [reflexivity|exact Hn].
Defined.

(** A handler that obtains its token and then calls the fetcher once, with
    nothing traced around the two, stays within the budget of a request. *)
Lemma handler_budget w cfg (handler : M http_response) (pre : St -> St) s
  ks start_ts end_ts interval limit :
  (forall s1, trace (pre s1) = trace s1) ->
  (forall token s1,
      obtain_token w cfg s = (Ok token, s1) -> truthy token = true ->
      trace (snd (handler s))
      = trace (snd (fetch_telemetry w cfg token ks (start_ts s1) (end_ts s1)
                      interval limit (pre s1)))) ->
  ((forall token, fst (obtain_token w cfg s) = Ok token -> truthy token = false) ->
   snd (handler s) = snd (obtain_token w cfg s)) ->
  within_request_budget (since s (snd (handler s))).
Proof.
  intros Hpre Hfetch Hnone. unfold within_request_budget.
  destruct (obtain_token_budget w cfg s) as (evs0 & Ht0 & Hg0 & Ha0 & Hl0 & Hs0 & _).
  assert (Halone : (count_events is_get evs0 <= 2)%nat /\
                   (count_events is_authenticate evs0 <= 2)%nat /\
                   (count_events is_login evs0 <= 6)%nat /\
                   0 <= sleep_seconds evs0 <= 6) by (repeat split; lia).
  destruct (obtain_token w cfg s) as [[token|e] s1] eqn:Eo; cbn [snd fst] in *.
  - destruct (truthy token) eqn:T.
    + specialize (Hfetch token s1 eq_refl T).
      destruct (fetch_telemetry_budget w cfg token ks (start_ts s1) (end_ts s1)
                  interval limit (pre s1)) as (evs1 & Ht1 & Hb).
      destruct Hb as (Hg1 & Ha1 & Hl1 & Hs1).
      rewrite Ht1, Hpre, Ht0, <- app_assoc in Hfetch.
      rewrite (since_app _ _ _ Hfetch).
      rewrite !count_events_app, sleep_seconds_app. repeat split; lia.
    + rewrite Hnone by (intros t [= <-]; exact T).
      rewrite (since_app _ _ _ Ht0). exact Halone.
  - rewrite Hnone by (intros t [=]).
    rewrite (since_app _ _ _ Ht0). exact Halone.
Qed.

(** X7.  Whatever the network does, one request to a telemetry handler
    issues at most two telemetry GETs, calls the authenticator at most twice,
    posts at most six logins and sleeps at most six seconds. *)
Theorem request_within_budget :
  forall (fs : string -> option float64) (w : World) (cfg : Config) (s : St),
    within_request_budget (since s (snd (get_telemetry fs w cfg s))) /\
    within_request_budget (since s (snd (get_weekly_telemetry w cfg s))) /\
    within_request_budget (since s (snd (get_monthly_telemetry w cfg s))).
Proof.
  intros fs w cfg s. split; [|split].
  - apply (handler_budget w cfg (get_telemetry fs w cfg) (fun s1 => s1) s
             (Some snapshot_keys) (fun _ => None) (fun _ => None) None None).
    + reflexivity.
    + apply get_telemetry_fetch.
    + apply get_telemetry_no_token.
  - apply (handler_budget w cfg (get_weekly_telemetry w cfg) tick s
             (Some series_keys)
             (fun s1 => Some (clock_ms w (n_clock s1) - 7 * 24 * 60 * 60 * 1000))
             (fun s1 => Some (clock_ms w (n_clock s1))) (Some 3600000) (Some 168)).
    + reflexivity.
    + apply get_weekly_telemetry_fetch.
    + apply get_weekly_telemetry_no_token.
  - apply (handler_budget w cfg (get_monthly_telemetry w cfg) tick s
             (Some series_keys)
             (fun s1 => Some (clock_ms w (n_clock s1) - 30 * 24 * 60 * 60 * 1000))
             (fun s1 => Some (clock_ms w (n_clock s1))) (Some 86400000) (Some 30)).
    + reflexivity.
    + apply get_monthly_telemetry_fetch.
    + apply get_monthly_telemetry_no_token.
Qed.

(** ** Query parameters *)

(** X8.  The query of a telemetry request.  Without keys, or with an empty
    list of keys, it has no [keys] parameter; otherwise [keys] lists, without
    repetition, exactly the spellings the table gives for the lower-cased
    requested keys, a key the table does not know being passed as it is.
    Each of [startTs], [endTs], [interval] and [limit] is present exactly
    when its argument was given and is not 0. *)
Theorem build_params_content :
  forall (ks : option (list string)) (start_ts end_ts step count : option Z),
    let q := build_params ks start_ts end_ts step count in
    (ks = None \/ ks = Some [] -> keys q = None) /\
    (forall k rest,
        ks = Some (k :: rest) ->
        exists spellings,
          keys q = Some spellings /\
          NoDup spellings /\
          forall x, In x spellings <->
                    exists key, In key (k :: rest) /\
                                In x (mapping_get (str_lower key) [key])) /\
    (forall z, startTs q = Some z <-> start_ts = Some z /\ z <> 0) /\
    (forall z, endTs q = Some z <-> end_ts = Some z /\ z <> 0) /\
    (forall z, interval q = Some z <-> step = Some z /\ z <> 0) /\
    (forall z, limit q = Some z <-> count = Some z /\ z <> 0).
Proof.
  intros ks start_ts end_ts step count. cbv zeta.
  assert (Hgiven : forall (o : option Z) z, given o = Some z <-> o = Some z /\ z <> 0).
  { intros o z. unfold given. destruct o as [n|].
    - destruct (n =? 0) eqn:E.
      + apply Z.eqb_eq in E. split; [discriminate|]. intros [[= ->] H]. contradiction.
      + apply Z.eqb_neq in E. split.
        * intros [= <-]. split; [reflexivity|exact E].
        * intros [[= <-] _]. reflexivity.
    - split; [discriminate|]. intros [[=] _]. }
  unfold build_params. cbn [keys startTs endTs interval limit].
  split; [|split; [|split; [|split; [|split]]]]; try (intros z; apply Hgiven).
  - intros [-> | ->]; reflexivity.
  - intros k rest ->. eexists. split; [reflexivity|]. split; [apply NoDup_nodup|].
    intros x. rewrite nodup_In. unfold expand_keys. rewrite in_flat_map. reflexivity.
Qed.

Lemma build_params_content_witness :
  exists spellings,
    keys (build_params (Some ["POWER"; "ngrok_url"; "power"]) (Some 0) None None (Some 5))
    = Some spellings /\
    NoDup spellings /\
    (In "ngrok_url" spellings /\ In "Power" spellings).
Proof.
  destruct (proj1 (proj2 (build_params_content
                            (Some ["POWER"; "ngrok_url"; "power"]) (Some 0) None None
                            (Some 5)))
              "POWER" ["ngrok_url"; "power"] eq_refl) as (spellings & Hk & Hn & Hin).
  exists spellings. split; [exact Hk|]. split; [exact Hn|]. split.
  - apply Hin. exists "ngrok_url". split; [cbn; tauto|vm_compute; tauto].
  - apply Hin. exists "POWER". split; [cbn; tauto|vm_compute; tauto].
Defined.

(** ** Key search on arbitrary data *)

(** X9.  [find_matching_key] on any parsed body.  With no candidate it
    returns [None] without looking at the data.  With candidates it raises
    exactly when the data is no container (null, a boolean or a number), and
    then a [TypeError]; otherwise it returns [None] or one of the
    candidates. *)
Theorem find_matching_key_any_data :
  forall (data : value) (possible_keys : list string),
    (possible_keys = [] -> find_matching_key data possible_keys = Ok None) /\
    (possible_keys <> [] ->
     (is_container data = false ->
      find_matching_key data possible_keys = Raise TypeError) /\
     (is_container data = true ->
      find_matching_key data possible_keys = Ok None \/
      exists name, In name possible_keys /\
                   find_matching_key data possible_keys = Ok (Some name))).
Proof.
  intros data possible_keys. split; [intros ->; reflexivity|].
  intros Hne. split.
  - intros Hc. destruct possible_keys as [|k rest]; [contradiction|].
    destruct data; try discriminate; reflexivity.
  - intros Hc. clear Hne.
    assert (Hp : forall k, exists b, py_contains k data = Ok b).
    { intros k. destruct data; try discriminate; eexists; reflexivity. }
    induction possible_keys as [|k rest IH]; [left; reflexivity|].
    cbn [find_matching_key]. destruct (Hp k) as (b & ->). cbn [rbind].
    destruct b.
    + right. exists k. split; [left; reflexivity|reflexivity].
    + destruct IH as [-> | (name & Hin & ->)].
      * left. reflexivity.
      * right. exists name. split; [right; exact Hin|reflexivity].
Qed.

(** A body that is the JSON number 5. *)
Lemma find_matching_key_any_data_witness :
  find_matching_key (VInt 5) ["Power"; "power"; "POWER"] = Raise TypeError.
Proof.
  apply (proj2 (find_matching_key_any_data (VInt 5) ["Power"; "power"; "POWER"])).
  - discriminate.
  - reflexivity.
Defined.

(** ** Latest value: what raises, and keys outside the table *)

(** X10.  What [extractLatest] does with the object stored under the matched
    spelling of a canonical key.  An empty list, or an empty string, raises
    [IndexError]; a list or a string whose first element is no object raises
    [AttributeError]; an object raises [KeyError]; null, a boolean or a
    number raises [TypeError]; a list that starts with an object whose value
    is an integer too large for a float raises [OverflowError]; and a list
    that starts with any other object returns normally. *)
Theorem get_value_and_timestamp_failures :
  forall (fs : string -> option float64) (d : dict value)
         (canonical : string) (variants : list string) (name : string) (v : value),
    dict_get TELEMETRY_KEY_MAPPING canonical = Some variants ->
    resolveKey (VDict d) canonical = Ok (Some name) ->
    dict_get d name = Some v ->
    let run := extractLatest fs (VDict d) canonical in
    (v = VList [] \/ v = VStr "" -> run = Raise IndexError) /\
    (forall e rest, v = VList (e :: rest) -> is_dict e = false ->
                    run = Raise AttributeError) /\
    (forall c rest, v = VStr (String c rest) -> run = Raise AttributeError) /\
    (is_dict v = true -> run = Raise KeyError) /\
    (is_container v = false -> run = Raise TypeError) /\
    (forall fields rest,
        v = VList (VDict fields :: rest) ->
        (py_float fs (raw_value fields) = Raise OverflowError ->
         run = Raise OverflowError) /\
        (py_float fs (raw_value fields) <> Raise OverflowError ->
         exists value, run = Ok (value, raw_ts fields))).
Proof.
  intros fs d canonical variants name v Hc Hr Hv. cbv zeta.
  unfold extractLatest.
  rewrite (get_value_and_timestamp_matched fs _ _ _ _ Hc Hr).
  cbn [py_get]. rewrite Hv. cbn [rbind].
  split; [|split; [|split; [|split; [|split]]]].
  - intros [-> | ->]; reflexivity.
  - intros e rest -> He. cbn [py_index nth_error rbind].
    destruct e; try discriminate; reflexivity.
  - intros c rest ->. reflexivity.
  - intros Hd. destruct v; try discriminate. reflexivity.
  - intros Hn. destruct v; try discriminate; reflexivity.
  - intros fields rest ->. cbn [py_index nth_error rbind py_get].
    fold (raw_value fields). fold (raw_ts fields). unfold coerce_value.
    split.
    + intros ->. reflexivity.
    + intros Hno. destruct (py_float fs (raw_value fields)) as [f|e] eqn:E.
      * eexists. reflexivity.
      * destruct e; try (eexists; reflexivity); try contradiction.
        all: exfalso; revert E; unfold py_float;
          destruct (raw_value fields) as [| |z| |str| |]; try discriminate;
          [ unfold float_of_Z;
            destruct (binary_normalize prec64 emax64 z 0 false); discriminate
          | destruct (fs str); discriminate ].
Qed.

Lemma get_value_and_timestamp_failures_witness :
  extractLatest FloatLiteral.float_of_str (VDict [("voltage", VList [])]) "voltage"
  = Raise IndexError.
Proof.
  apply (proj1 (get_value_and_timestamp_failures FloatLiteral.float_of_str
                  [("voltage", VList [])] "voltage" ["Voltage"; "voltage"; "VOLTAGE"]
                  "voltage" (VList []) eq_refl eq_refl eq_refl)).
  left. reflexivity.
Defined.

(** X11.  For a key the table does not know, [extractLatest] searches the
    response for that very key: absent, it gives [(0.0, None)]; present with
    a list that starts with an object whose value can be coerced, it gives
    that value and the [ts] of the object.  The empty key gives
    [(0.0, None)] even when the response has it. *)
Theorem get_value_and_timestamp_unknown_key :
  forall (fs : string -> option float64) (d : dict value) (key : string),
    dict_get TELEMETRY_KEY_MAPPING key = None ->
    (dict_mem d key = false \/ key = "" ->
     extractLatest fs (VDict d) key = Ok (fzero, VNone)) /\
    (forall fields rest f,
        key <> "" ->
        dict_get d key = Some (VList (VDict fields :: rest)) ->
        py_float fs (raw_value fields) = Ok f ->
        extractLatest fs (VDict d) key = Ok (f, raw_ts fields)).
Proof.
  intros fs d key Hk. unfold extractLatest, get_value_and_timestamp, mapping_get.
  rewrite Hk. cbn [find_matching_key py_contains rbind]. split.
  - intros [H | ->].
    + rewrite H. reflexivity.
    + destruct (dict_mem d ""); reflexivity.
  - intros fields rest f Hne Hg Hf. unfold dict_mem. rewrite Hg. cbn [rbind].
    destruct (String.eqb key "") eqn:E; [apply String.eqb_eq in E; contradiction|].
    cbn [py_get]. rewrite Hg. cbn [rbind py_index nth_error py_get].
    fold (raw_value fields). fold (raw_ts fields). unfold coerce_value. rewrite Hf.
    reflexivity.
Qed.

Lemma get_value_and_timestamp_unknown_key_witness :
  extractLatest FloatLiteral.float_of_str
    (VDict [("temperature", VList [VDict [("ts", VInt 1714000000000);
                                          ("value", VStr "21")]])])
    "temperature"
  = Ok (S754_finite false 5910974510923776 (-48), VInt 1714000000000).
Proof.
  apply (proj2 (get_value_and_timestamp_unknown_key FloatLiteral.float_of_str
                  [("temperature", VList [VDict [("ts", VInt 1714000000000);
                                                 ("value", VStr "21")]])]
                  "temperature" eq_refl)
           [("ts", VInt 1714000000000); ("value", VStr "21")] []).
  - discriminate.
  - reflexivity.
  - vm_compute. reflexivity.
Defined.

(** ** Snapshot: tunnel URL and assembly *)

(** One turn of the loop over the spellings of the tunnel URL, on a
    mapping. *)
Lemma ngrok_scan_step (d : dict value) key rest :
  ngrok_scan (VDict d) (key :: rest)
  = match tunnel_url d key with
    | Some url => Ok url
    | None => ngrok_scan (VDict d) rest
    end.
Proof.
  cbn [ngrok_scan py_contains rbind]. unfold tunnel_url, dict_mem, series_field.
  cbn [py_item].
  destruct (dict_get d key) as [series|]; [|reflexivity].
  cbn [rbind].
  destruct series as [|b|z|f|str|l|o]; cbn [truthy]; try reflexivity.
  - destruct b; reflexivity.
  - destruct (z =? 0); reflexivity.
  - destruct (float_is_zero f); reflexivity.
  - destruct str as [|c str']; reflexivity.
  - destruct l as [|e l']; [reflexivity|]. cbn [py_index nth_error rbind].
    destruct e; try reflexivity.
    cbn [py_item]. destruct (dict_get d0 "value"); reflexivity.
  - destruct o; reflexivity.
Qed.

(** X12.  The search for the tunnel URL on a mapping never raises.  A
    spelling qualifies when its entry is a list that starts with an object
    having a [value]; an entry that is absent, empty or of another form is
    skipped.  The result is the [value] under the first spelling that
    qualifies, and [None] when none does. *)
Theorem ngrok_scan_on_mapping :
  forall (d : dict value) (spellings : list string),
    (exists url, ngrok_scan (VDict d) spellings = Ok url) /\
    (forall before key after url,
        spellings = before ++ key :: after ->
        (forall k, In k before -> tunnel_url d k = None) ->
        tunnel_url d key = Some url ->
        ngrok_scan (VDict d) spellings = Ok url) /\
    ((forall k, In k spellings -> tunnel_url d k = None) ->
     ngrok_scan (VDict d) spellings = Ok VNone).
Proof.
  intros d spellings. split; [|split].
  - induction spellings as [|k rest IH]; [eexists; reflexivity|].
    rewrite ngrok_scan_step. destruct (tunnel_url d k); [eexists; reflexivity|exact IH].
  - intros before key after url -> Hbefore Hkey.
    induction before as [|b before IH]; cbn [app]; rewrite ngrok_scan_step.
    + rewrite Hkey. reflexivity.
    + rewrite (Hbefore b (or_introl eq_refl)).
      apply IH. intros k Hk. apply Hbefore. right. exact Hk.
  - induction spellings as [|k rest IH]; intros H; [reflexivity|].
    rewrite ngrok_scan_step, (H k (or_introl eq_refl)).
    apply IH. intros k' Hk'. apply H. right. exact Hk'.
Qed.

(** The lower-case spelling holds an empty list: the next one is used. *)
Lemma ngrok_scan_on_mapping_witness :
  ngrok_scan
    (VDict [ ("ngrok_url", VList []);
             ("NGROK_URL", VList [VDict [("ts", VInt 1714000000000);
                                         ("value", VStr "https://a1b2.ngrok.io")]]) ])
    ngrok_spellings
  = Ok (VStr "https://a1b2.ngrok.io").
Proof.
  apply (proj1 (proj2 (ngrok_scan_on_mapping
           [ ("ngrok_url", VList []);
             ("NGROK_URL", VList [VDict [("ts", VInt 1714000000000);
                                         ("value", VStr "https://a1b2.ngrok.io")]]) ]
           ngrok_spellings))
         ["ngrok_url"; "Ngrok_Url"] "NGROK_URL" []).
  - reflexivity.
  - intros k [<-|[<-|[]]]; reflexivity.
  - reflexivity.
Defined.

Lemma process_telemetry_data_run fs w (d : dict value) s
  (power voltage current frequency rmp energy powerfact : float64 * value) :
  d <> [] ->
  get_value_and_timestamp fs (VDict d) "power" = Ok power ->
  get_value_and_timestamp fs (VDict d) "voltage" = Ok voltage ->
  get_value_and_timestamp fs (VDict d) "current" = Ok current ->
  get_value_and_timestamp fs (VDict d) "frequency" = Ok frequency ->
  get_value_and_timestamp fs (VDict d) "rmp" = Ok rmp ->
  get_value_and_timestamp fs (VDict d) "energy" = Ok energy ->
  get_value_and_timestamp fs (VDict d) "powerfact" = Ok powerfact ->
  process_telemetry_data fs w (VDict d) s
  = (Ok (VDict [ ("power", VFloat (fst power)); ("power_timestamp", snd power);
                 ("voltage", VFloat (fst voltage)); ("voltage_timestamp", snd voltage);
                 ("current", VFloat (fst current)); ("current_timestamp", snd current);
                 ("frequency", VFloat (fst frequency));
                 ("frequency_timestamp", snd frequency);
                 ("rmp", VFloat (fst rmp)); ("rmp_timestamp", snd rmp);
                 ("energy", VFloat (fst energy)); ("energy_timestamp", snd energy);
                 ("powerfactor", VFloat (fst powerfact));
                 ("powerfactor_timestamp", snd powerfact);
                 ("timestamp", VInt (clock_ms w (n_clock s)));
                 ("online", VBool true) ]), tick s).
Proof.
  intros Hd Hp Hv Hc Hf Hr He Hpf. unfold process_telemetry_data.
  assert (Ht : truthy (VDict d) = true) by (destruct d; [contradiction|reflexivity]).
  rewrite Ht. cbn [negb]. unfold bind, lift.
  rewrite Hp, Hv, Hc, Hf, Hr, He, Hpf. reflexivity.
Qed.

(** X13.  The snapshot handler on a fetched mapping that is not empty.  If
    the seven extractions return, the response is 200 and its body holds the
    seven values and timestamps, the clock reading, [online] true and the
    tunnel URL found by the scan.  If one of the seven extractions raises,
    the handler raises: it has no [except] of its own. *)
Theorem get_telemetry_assembles :
  forall (fs : string -> option float64) (w : World) (cfg : Config)
         (s s1 s2 : St) (token : value) (d : dict value),
    d <> [] ->
    obtain_token w cfg s = (Ok token, s1) ->
    truthy token = true ->
    fetch_telemetry w cfg token (Some snapshot_keys) None None None None s1
    = (Ok (VDict d), s2) ->
    (forall power voltage current frequency rmp energy powerfact,
        extractLatest fs (VDict d) "power" = Ok power ->
        extractLatest fs (VDict d) "voltage" = Ok voltage ->
        extractLatest fs (VDict d) "current" = Ok current ->
        extractLatest fs (VDict d) "frequency" = Ok frequency ->
        extractLatest fs (VDict d) "rmp" = Ok rmp ->
        extractLatest fs (VDict d) "energy" = Ok energy ->
        extractLatest fs (VDict d) "powerfact" = Ok powerfact ->
        exists url,
          ngrok_scan (VDict d) ngrok_spellings = Ok url /\
          get_telemetry fs w cfg s
          = (Ok (200, snapshot_body power voltage current frequency rmp energy
                        powerfact (clock_ms w (n_clock s2)) url),
             tick s2)) /\
    (forall canonical e,
        In canonical canonical_keys ->
        extractLatest fs (VDict d) canonical = Raise e ->
        exists e', fst (get_telemetry fs w cfg s) = Raise e').
Proof.
  intros fs w cfg s s1 s2 token d Hd Htok T Hfetch.
  assert (Ht : truthy (VDict d) = true) by (destruct d; [contradiction|reflexivity]).
  assert (Hhead : get_telemetry fs w cfg s
                  = (processed <- process_telemetry_data fs w (VDict d) ;;
                     ngrok_url <- lift (ngrok_scan (VDict d)
                                          ["ngrok_url"; "Ngrok_Url"; "NGROK_URL"]) ;;
                     processed <- lift (py_setitem processed "ngrok_url" ngrok_url) ;;
                     ret (200, processed)) s2).
  { unfold get_telemetry. unfold bind at 1. rewrite Htok, T. cbn [negb].
    unfold bind at 1. rewrite Hfetch, Ht. reflexivity. }
  split.
  - intros power voltage current frequency rmp energy powerfact Hp Hv Hc Hf Hr He Hpf.
    destruct (proj1 (ngrok_scan_on_mapping d ngrok_spellings)) as (url & Hu).
    exists url. split; [exact Hu|]. rewrite Hhead. unfold bind at 1.
    rewrite (process_telemetry_data_run fs w d s2 _ _ _ _ _ _ _ Hd Hp Hv Hc Hf Hr He Hpf).
    unfold bind, lift. unfold ngrok_spellings in Hu. rewrite Hu. reflexivity.
  - intros canonical e Hin He. rewrite Hhead. unfold bind at 1.
    unfold process_telemetry_data. rewrite Ht. cbn [negb]. unfold bind, lift.
    unfold extractLatest in He.
    destruct (get_value_and_timestamp fs (VDict d) "power") as [p|] eqn:Ep;
      [|eexists; reflexivity].
    destruct (get_value_and_timestamp fs (VDict d) "voltage") as [v|] eqn:Ev;
      [|eexists; reflexivity].
    destruct (get_value_and_timestamp fs (VDict d) "current") as [c|] eqn:Ec;
      [|eexists; reflexivity].
    destruct (get_value_and_timestamp fs (VDict d) "frequency") as [f|] eqn:Ef;
      [|eexists; reflexivity].
    destruct (get_value_and_timestamp fs (VDict d) "rmp") as [r|] eqn:Er;
      [|eexists; reflexivity].
    destruct (get_value_and_timestamp fs (VDict d) "energy") as [en|] eqn:Een;
      [|eexists; reflexivity].
    destruct (get_value_and_timestamp fs (VDict d) "powerfact") as [pf|] eqn:Epf;
      [|eexists; reflexivity].
    exfalso. cbn [canonical_keys In] in Hin.
    repeat match type of Hin with
           | _ \/ _ => destruct Hin as [<-|Hin]
           end;
      try contradiction; congruence.
Qed.

Lemma get_telemetry_assembles_witness :
  let w := {| connect := fun _ => true;
              login_post := fun _ => login_ok;
              telemetry_get := fun _ =>
                Responded {| status_code := 200;
                             body := Some (VDict [("Power", VList [])]) |};
              clock_ms := fun _ => 1714000000000;
              local_now := fun _ => "2024-04-25 01:06:40";
              local_date := fun _ => "2024-04-25" |} in
  extractLatest FloatLiteral.float_of_str (VDict [("Power", VList [])]) "power"
  = Raise IndexError /\
  exists e, fst (get_telemetry FloatLiteral.float_of_str w sample_static_cfg initial)
            = Raise e.
Proof.
  cbv zeta. split; [reflexivity|].
  apply (proj2 (get_telemetry_assembles FloatLiteral.float_of_str
           {| connect := fun _ => true;
              login_post := fun _ => login_ok;
              telemetry_get := fun _ =>
                Responded {| status_code := 200;
                             body := Some (VDict [("Power", VList [])]) |};
              clock_ms := fun _ => 1714000000000;
              local_now := fun _ => "2024-04-25 01:06:40";
              local_date := fun _ => "2024-04-25" |}
           sample_static_cfg initial initial _ (VStr "static") [("Power", VList [])]
           ltac:(discriminate) eq_refl eq_refl eq_refl)
         "power" IndexError).
  - cbn. tauto.
  - reflexivity.
Defined.

(** X14.  A response that is not empty but holds no spelling of any
    canonical key is reported as a reading: all seven values are [0.0], all
    seven timestamps are [None], and [online] is true. *)
Theorem process_telemetry_data_unknown_keys :
  forall (fs : string -> option float64) (w : World) (d : dict value) (s : St),
    d <> [] ->
    (forall canonical variants v,
        dict_get TELEMETRY_KEY_MAPPING canonical = Some variants ->
        In v variants -> dict_mem d v = false) ->
    process_telemetry_data fs w (VDict d) s
    = (Ok (VDict [ ("power", VFloat fzero); ("power_timestamp", VNone);
                   ("voltage", VFloat fzero); ("voltage_timestamp", VNone);
                   ("current", VFloat fzero); ("current_timestamp", VNone);
                   ("frequency", VFloat fzero); ("frequency_timestamp", VNone);
                   ("rmp", VFloat fzero); ("rmp_timestamp", VNone);
                   ("energy", VFloat fzero); ("energy_timestamp", VNone);
                   ("powerfactor", VFloat fzero); ("powerfactor_timestamp", VNone);
                   ("timestamp", VInt (clock_ms w (n_clock s)));
                   ("online", VBool true) ]), tick s).
Proof.
  intros fs w d s Hd Habsent.
  assert (Hz : forall canonical variants,
             dict_get TELEMETRY_KEY_MAPPING canonical = Some variants ->
             get_value_and_timestamp fs (VDict d) canonical = Ok (fzero, VNone)).
  { intros canonical variants Hc. unfold get_value_and_timestamp.
    rewrite (mapping_get_canonical _ _ _ Hc), find_matching_key_dict.
    assert (Hn : find (dict_mem d) variants = None)
      by (apply find_none_present; intros v Hv; exact (Habsent _ _ v Hc Hv)).
    rewrite Hn. reflexivity. }
  apply (process_telemetry_data_run fs w d s
           (fzero, VNone) (fzero, VNone) (fzero, VNone) (fzero, VNone)
           (fzero, VNone) (fzero, VNone) (fzero, VNone) Hd);
    eapply Hz; reflexivity.
Qed.

Lemma process_telemetry_data_unknown_keys_witness :
  exists body,
    process_telemetry_data FloatLiteral.float_of_str healthy_world
      (VDict [("temperature", VList [VDict [("ts", VInt 1714000000000);
                                            ("value", VStr "21")]])]) initial
    = (Ok (VDict body), tick initial) /\
    dict_get body "power" = Some (VFloat fzero) /\
    dict_get body "online" = Some (VBool true).
Proof.
  eexists. split.
  - apply (process_telemetry_data_unknown_keys FloatLiteral.float_of_str healthy_world
             [("temperature", VList [VDict [("ts", VInt 1714000000000);
                                            ("value", VStr "21")]])] initial).
    + discriminate.
    + intros canonical variants v Hc Hv.
      pose proof (variants_not_empty canonical variants Hc v Hv) as _.
      revert Hc. unfold TELEMETRY_KEY_MAPPING. cbn [dict_get].
      repeat match goal with
             | |- context [String.eqb ?a canonical] => destruct (String.eqb a canonical)
             end;
        cbv iota; intros [= <-]; cbn [In] in Hv;
        repeat match type of Hv with
               | _ \/ _ => destruct Hv as [<-|Hv]
               end;
        try contradiction; reflexivity.
  - split; reflexivity.
Defined.

(** ** Series handlers: malformed records and a missing power series *)

Lemma get_weekly_telemetry_after_fetch w cfg s s1 s2 token (d : dict value) :
  d <> [] ->
  obtain_token w cfg s = (Ok token, s1) ->
  truthy token = true ->
  fetch_telemetry w cfg token (Some series_keys)
    (Some (clock_ms w (n_clock s1) - 7 * 24 * 60 * 60 * 1000))
    (Some (clock_ms w (n_clock s1))) (Some 3600000) (Some 168) (tick s1)
  = (Ok (VDict d), s2) ->
  get_weekly_telemetry w cfg s
  = (series_outcome w d (clock_ms w (n_clock s1) - 7 * 24 * 60 * 60 * 1000)
       (clock_ms w (n_clock s1)) "hourly", s2).
Proof.
  intros Hd Htok T Hfetch.
  assert (Ht : truthy (VDict d) = true) by (destruct d; [contradiction|reflexivity]).
  unfold get_weekly_telemetry. unfold bind at 1. rewrite Htok, T. cbn [negb].
  unfold bind at 1. rewrite get_time_range_run.
  unfold bind at 1. rewrite Hfetch, Ht. cbn [negb].
  unfold bind, lift, series_outcome.
  destruct (series_points (VDict d)); reflexivity.
Qed.

Lemma get_monthly_telemetry_after_fetch w cfg s s1 s2 token (d : dict value) :
  d <> [] ->
  obtain_token w cfg s = (Ok token, s1) ->
  truthy token = true ->
  fetch_telemetry w cfg token (Some series_keys)
    (Some (clock_ms w (n_clock s1) - 30 * 24 * 60 * 60 * 1000))
    (Some (clock_ms w (n_clock s1))) (Some 86400000) (Some 30) (tick s1)
  = (Ok (VDict d), s2) ->
  get_monthly_telemetry w cfg s
  = (series_outcome w d (clock_ms w (n_clock s1) - 30 * 24 * 60 * 60 * 1000)
       (clock_ms w (n_clock s1)) "daily", s2).
Proof.
  intros Hd Htok T Hfetch.
  assert (Ht : truthy (VDict d) = true) by (destruct d; [contradiction|reflexivity]).
  unfold get_monthly_telemetry. unfold bind at 1. rewrite Htok, T. cbn [negb].
  unfold bind at 1. rewrite get_time_range_run.
  unfold bind at 1. rewrite Hfetch, Ht. cbn [negb].
  unfold bind, lift, series_outcome.
  destruct (series_points (VDict d)); reflexivity.
Qed.

(** On a mapping the six actual keys are always found. *)
Lemma resolve_actual_keys_dict (d : dict value) :
  exists ks,
    resolve_actual_keys (VDict d) = Ok ks /\
    actual_power_key ks
    = or_else (find (dict_mem d) (mapping_get "power" ["power"])) "power".
Proof.
  unfold resolve_actual_keys, actual_key. rewrite !find_matching_key_dict.
  cbn [rbind]. eexists. split; reflexivity.
Qed.

Lemma power_key_found (d : dict value) name :
  resolveKey (VDict d) "power" = Ok (Some name) ->
  or_else (find (dict_mem d) (mapping_get "power" ["power"])) "power" = name.
Proof.
  unfold resolveKey. rewrite find_matching_key_dict. intros H0.
  assert (H : find (dict_mem d) (mapping_get "power" ["power"]) = Some name)
    by congruence.
  rewrite H. cbn [or_else].
  rewrite (variants_not_empty "power" _ eq_refl name); [reflexivity|].
  exact (proj1 (find_some _ _ H)).
Qed.

(** The loop on a mapping, in terms of the power key. *)
Lemma series_points_dict (d : dict value) :
  exists ks,
    actual_power_key ks
    = or_else (find (dict_mem d) (mapping_get "power" ["power"])) "power" /\
    series_points (VDict d)
    = (let? series := py_get (VDict d) (actual_power_key ks) (VList []) in
       let? max_points := py_len series in
       rmap (series_point (VDict d) ks) (seq 0 max_points)).
Proof.
  destruct (resolve_actual_keys_dict d) as (ks & Hk & Hp).
  exists ks. split; [exact Hp|]. unfold series_points. rewrite Hk. reflexivity.
Qed.

(** X15.  The loop of the series handlers trusts the records of the power
    series: if its first record is an object without a [ts] or without a
    [value] the loop raises [KeyError], and if it is no object at all the
    loop raises [TypeError]; no response is assembled, whatever the rest of
    the data. *)
Theorem series_points_malformed_power :
  forall (d : dict value) (name : string) (first : value) (rest : list value),
    resolveKey (VDict d) "power" = Ok (Some name) ->
    dict_get d name = Some (VList (first :: rest)) ->
    (forall fields,
        first = VDict fields ->
        dict_get fields "ts" = None \/ dict_get fields "value" = None ->
        series_points (VDict d) = Raise KeyError) /\
    (is_dict first = false -> series_points (VDict d) = Raise TypeError).
Proof.
  intros d name first rest Hr Hg.
  destruct (series_points_dict d) as (ks & Hp & ->).
  pose proof (eq_trans Hp (power_key_found d name Hr)) as Hp'. clear Hp.
  rename Hp' into Hp.
  cbn [py_get]. rewrite Hp, Hg. cbn [rbind py_len List.length seq rmap].
  unfold series_point. rewrite Hp. unfold series_field.
  cbn [py_item]. rewrite Hg. cbn [rbind py_index nth_error].
  split.
  - intros fields -> [Hts | Hval]; cbn [py_item].
    + rewrite Hts. reflexivity.
    + destruct (dict_get fields "ts"); [|reflexivity]. cbn [rbind].
      rewrite Hval. reflexivity.
  - intros Hd. destruct first; try discriminate; reflexivity.
Qed.

Lemma series_points_malformed_power_witness :
  series_points
    (VDict [("Power", VList [VDict [("value", VStr "231.5")]]);
            ("Voltage", VList [VDict [("ts", VInt 1714000000000);
                                      ("value", VStr "229.9")]])])
  = Raise KeyError.
Proof.
  apply (proj1 (series_points_malformed_power
           [("Power", VList [VDict [("value", VStr "231.5")]]);
            ("Voltage", VList [VDict [("ts", VInt 1714000000000);
                                      ("value", VStr "229.9")]])]
           "Power" (VDict [("value", VStr "231.5")]) [] eq_refl eq_refl)
         [("value", VStr "231.5")] eq_refl).
  left. reflexivity.
Defined.

(** X16.  The power series alone decides the length: when a fetched mapping
    that is not empty holds no spelling of [power], the weekly and the
    monthly handler answer 200 with an empty [data] list, whatever the other
    series hold. *)
Theorem no_power_series_gives_empty_data :
  forall (w : World) (cfg : Config) (s s1 s2 : St) (token : value) (d : dict value),
    d <> [] ->
    (forall v, In v ["Power"; "power"; "POWER"] -> dict_mem d v = false) ->
    series_points (VDict d) = Ok [] /\
    (obtain_token w cfg s = (Ok token, s1) ->
     truthy token = true ->
     let now := clock_ms w (n_clock s1) in
     let week := 7 * 24 * 60 * 60 * 1000 in
     let month := 30 * 24 * 60 * 60 * 1000 in
     (fetch_telemetry w cfg token (Some series_keys)
        (Some (now - week)) (Some now) (Some 3600000) (Some 168) (tick s1)
      = (Ok (VDict d), s2) ->
      get_weekly_telemetry w cfg s
      = (Ok (series_response w [] (now - week) now "hourly"), s2)) /\
     (fetch_telemetry w cfg token (Some series_keys)
        (Some (now - month)) (Some now) (Some 86400000) (Some 30) (tick s1)
      = (Ok (VDict d), s2) ->
      get_monthly_telemetry w cfg s
      = (Ok (series_response w [] (now - month) now "daily"), s2))).
Proof.
  intros w cfg s s1 s2 token d Hd Habsent.
  assert (Hp : series_points (VDict d) = Ok []).
  { destruct (series_points_dict d) as (ks & Hk & ->).
    assert (Hn : find (dict_mem d) (mapping_get "power" ["power"]) = None)
      by (apply find_none_present; exact Habsent).
    rewrite Hn in Hk. cbn [or_else] in Hk. cbn [py_get]. rewrite Hk.
    assert (Hg : dict_get d "power" = None).
    { pose proof (Habsent "power" (or_intror (or_introl eq_refl))) as H.
      unfold dict_mem in H. destruct (dict_get d "power"); [discriminate|reflexivity]. }
    rewrite Hg. reflexivity. }
  split; [exact Hp|]. intros Htok T. cbv zeta. split; intros Hfetch.
  - rewrite (get_weekly_telemetry_after_fetch w cfg s s1 s2 token d Hd Htok T Hfetch).
    unfold series_outcome. rewrite Hp. reflexivity.
  - rewrite (get_monthly_telemetry_after_fetch w cfg s s1 s2 token d Hd Htok T Hfetch).
    unfold series_outcome. rewrite Hp. reflexivity.
Qed.

Lemma no_power_series_gives_empty_data_witness :
  series_points
    (VDict [("Voltage", VList [VDict [("ts", VInt 1714000000000);
                                      ("value", VStr "229.9")]])])
  = Ok [].
Proof.
  apply (proj1 (no_power_series_gives_empty_data healthy_world sample_cfg
                  initial initial initial VNone
                  [("Voltage", VList [VDict [("ts", VInt 1714000000000);
                                             ("value", VStr "229.9")]])]
                  ltac:(discriminate)
                  ltac:(intros v [<-|[<-|[<-|[]]]]; reflexivity))).
Defined.

(** ** Keep-alive pinger *)

Lemma ping_render_run (w : Ping.World) (s : Ping.St) :
  Ping.ping_render w s
  = (Ok tt,
     {| Ping.n_ping := S (Ping.n_ping s);
        Ping.n_ctime := S (Ping.n_ctime s);
        Ping.trace :=
          Ping.trace s
          ++ [ Ping.EvPing;
               Ping.EvPrint (ping_line (Ping.ping_get w (Ping.n_ping s))
                               (Ping.ctime w (Ping.n_ctime s))) ] |}).
Proof.
  unfold Ping.ping_render, Ping.requests_get, ping_line.
  destruct (Ping.ping_get w (Ping.n_ping s)) as [r|].
  - destruct (status_code r =? 200); unfold Ping.print_at; cbn;
      rewrite <- app_assoc; reflexivity.
  - unfold Ping.print_at. cbn. rewrite <- app_assoc. reflexivity.
Qed.

Lemma ping_cycles_shift w p c n :
  flat_map (ping_cycle w p c) (seq 1 n)
  = flat_map (ping_cycle w (S p) (S c)) (seq 0 n).
Proof.
  rewrite <- seq_shift, flat_map_concat_map, map_map, <- flat_map_concat_map.
  apply flat_map_ext. intros k. unfold ping_cycle.
  rewrite !Nat.add_succ_r. reflexivity.
Qed.

(** X17.  The keep-alive loop never stops on a failed ping.  Whatever the
    pings are answered, its first [n] turns end normally, and each turn is
    one GET, one printed line that tells a 200 from another status from a
    request failure, and one sleep of 180 seconds. *)
Theorem ping_loop_keeps_going :
  forall (w : Ping.World) (n : nat) (s : Ping.St),
    let run := Ping.main_loop w n s in
    fst run = Ok tt /\
    Ping.trace (snd run)
    = Ping.trace s
      ++ flat_map (ping_cycle w (Ping.n_ping s) (Ping.n_ctime s)) (seq 0 n) /\
    Ping.n_ping (snd run) = (Ping.n_ping s + n)%nat.
Proof.
  intros w n. induction n as [|n IH]; intros s; cbv zeta.
  - cbn. rewrite app_nil_r, Nat.add_0_r. repeat split.
  - cbn [Ping.main_loop]. rewrite ping_render_run. cbn [Ping.time_sleep].
    match goal with
    | |- context [Ping.main_loop w n ?s2] => specialize (IH s2); set (s2' := s2) in *
    end.
    cbv zeta in IH. destruct IH as (Hr & Ht & Hn).
    split; [exact Hr|]. split.
    + rewrite Ht. subst s2'. cbn [Ping.trace Ping.n_ping Ping.n_ctime].
      rewrite <- !app_assoc. f_equal.
      cbn [seq flat_map]. rewrite ping_cycles_shift.
      unfold ping_cycle at 2. rewrite !Nat.add_0_r. reflexivity.
    + rewrite Hn. subst s2'. cbn [Ping.n_ping]. lia.
Qed.

(** ** A request without a static token *)

(** X18.  Without a static token, when the probe succeeds twice, the first
    login succeeds with a token that is true and the first GET is not
    answered 401, a request to the weekly handler probes, logs in once,
    probes again and issues one GET that carries the token just obtained and
    the weekly query; nothing is slept. *)
Theorem weekly_request_logs_in_then_fetches :
  forall (w : World) (cfg : Config) (s : St) (token : value),
    truthy (opt_str (JWT_TOKEN cfg)) = false ->
    connect w (n_connect s) = true ->
    connect w (S (n_connect s)) = true ->
    login_success (login_post w (n_post s)) token ->
    truthy token = true ->
    ~ is_401 (telemetry_get w (n_get s)) ->
    since s (snd (get_weekly_telemetry w cfg s))
    = [ EvAuthenticate; EvConnect true; EvLogin (USERNAME cfg) (PASSWORD cfg);
        EvConnect true;
        EvGet (DEVICE_ID cfg) token
          (series_query (clock_ms w (n_clock s)) (7 * 24 * 60 * 60 * 1000) 3600000 168) ].
Proof.
  intros w cfg s token J C1 C2 L T N.
  set (s1 := after_post cfg (after_connect true (emit EvAuthenticate s))).
  assert (Ho : obtain_token w cfg s = (Ok token, s1)).
  { unfold obtain_token. rewrite J. rewrite (get_auth_token_online w cfg s C1).
    apply login_loop_success. exact L. }
  apply since_app.
  rewrite (get_weekly_telemetry_fetch w cfg s token s1 Ho T).
  rewrite fetch_telemetry_no_401; [|exact T|exact C2|exact N].
  subst s1. unfold series_query. trace_normal. cbn [tick trace]. trace_normal.
  reflexivity.
Qed.

Lemma weekly_request_logs_in_then_fetches_witness :
  since initial (snd (get_weekly_telemetry healthy_world sample_cfg initial))
  = [ EvAuthenticate; EvConnect true;
      EvLogin (Some "tenant@thingsboard.org") (Some "tenant");
      EvConnect true;
      EvGet (Some "dev-1") (VStr "fresh")
        (series_query 1714000000000 (7 * 24 * 60 * 60 * 1000) 3600000 168) ].
Proof.
  apply (weekly_request_logs_in_then_fetches healthy_world sample_cfg initial
           (VStr "fresh") eq_refl eq_refl eq_refl).
  - exists {| status_code := 200;
              body := Some (VDict [("token", VStr "fresh"); ("refreshToken", VStr "r1")]) |},
      [("token", VStr "fresh"); ("refreshToken", VStr "r1")].
    repeat split. cbn. lia.
  - reflexivity.
  - intros (r & E & S401). injection E as <-. discriminate.
Defined.
